(** * glider: the Planet download pipeline

    A shallow embedding of the methods of class [PlanetDownloader] in
    [glider/pipelines/planet_downloader.py].  The command line in
    [glider/view/planet_downloader_cli.py] only parses arguments and calls
    [download] with them.

    Python values that the pipeline only passes around are kept as an
    untyped [value]; dictionaries are objects of a store, so that two
    names of one dictionary see each other's writes.  The vendor SDK,
    geopandas, shapely, the clock and the file system are collaborators:
    each call goes through the environment [Env], which may answer or
    raise, and the calls that reach the outside are recorded as [event]s.
    [logging.info] calls are left out: no property below observes them.
    The constructor (the key lookup and [os.makedirs]) runs before any of
    the methods and has an environment of its own, [InitEnv]: for the
    methods a downloader is the record of what it stored. *)

From Stdlib Require Import ZArith QArith List Ascii String Lia.
From stdpp Require Import base gmap strings list.
Import ListNotations.

(** ** Python exceptions and results *)

(** The argument of [sys.exit]. *)
Inductive exit_arg :=
| ExitNone
| ExitInt (code : Z)
| ExitStr (msg : string).

Inductive exn :=
| SystemExit (arg : exit_arg)
| ValueError (msg : string)
| KeyError (key : string)
| TypeError (msg : string)
| AttributeError (msg : string)
| CollaboratorError (what : string).

Inductive result (A : Type) :=
| Ok (a : A)
| Raise (e : exn).
Arguments Ok {A} a.
Arguments Raise {A} e.

(** ** Built-ins: [range] and slicing *)

Module Py.

(** Number of elements of [range(start, stop, step)], [step <> 0]. *)
Definition range_len (start stop step : Z) : Z :=
  if (0 <? step)%Z then
    if (start <? stop)%Z then ((stop - start - 1) / step + 1)%Z else 0%Z
  else
    if (stop <? start)%Z then ((start - stop - 1) / (- step) + 1)%Z else 0%Z.

(** [range(start, stop, step)]: a zero step raises [ValueError]. *)
Definition range (start stop step : Z) : result (list Z) :=
  if (step =? 0)%Z then Raise (ValueError "range() arg 3 must not be zero")
  else Ok (map (fun k => (start + Z.of_nat k * step)%Z)
               (seq 0 (Z.to_nat (range_len start stop step)))).

(** A slice bound is taken from the end when negative, then clamped. *)
Definition slice_index (n i : Z) : Z :=
  if (i <? 0)%Z then Z.max 0 (i + n) else Z.min i n.

(** [l[i:j]] *)
Definition slice {A} (l : list A) (i j : Z) : list A :=
  let n := Z.of_nat (length l) in
  let lo := slice_index n i in
  let hi := slice_index n j in
  firstn (Z.to_nat (hi - lo)) (skipn (Z.to_nat lo) l).

End Py.

(** ** The batcher *)

(** [_chunk_list(self, lst, chunk_size)]: the chunks the generator yields,
    in order, or the exception its first step raises.  The body has no
    effect of its own, so the loop that consumes it sees this list. *)
Definition _chunk_list {A} (lst : list A) (chunk_size : Z) : result (list (list A)) :=
  match Py.range 0 (Z.of_nat (length lst)) chunk_size with
  | Ok idx => Ok (map (fun i => Py.slice lst i (i + chunk_size)) idx)
  | Raise e => Raise e
  end.

Definition MAX_ITEMS_PER_ORDER : Z := 500.
Definition POLL_INTERVAL : Z := 30.

(** Number of chunks of [n] items by [c]: the ceiling of [n / c]. *)
Definition ceil_div (n c : nat) : nat := (n + c - 1) / c.

(** The chunks as a function of the chunk count: chunk [k] is the [c]
    items that follow the first [k * c]. *)
Definition chunks_upto {A} (l : list A) (c m : nat) : list (list A) :=
  map (fun k => firstn c (skipn (k * c) l)) (seq 0 m).

(** ** Values and the store *)

Definition loc := positive.

(** What the pipeline handles.  A dictionary is a reference into the
    store; [VForeign] is an object owned by a library (a shapely geometry,
    a [datetime], a frame read from a file). *)
Inductive value :=
| VNone
| VBool (b : bool)
| VInt (n : Z)
| VFloat (x : Q)
| VStr (s : string)
| VDict (l : loc)
| VForeign (handle : string).

Definition is_str (v : value) : bool :=
  match v with VStr _ => true | _ => false end.

(** ** The vendor SDK's request and filter builders *)

Module data_filter.

(** The keyword arguments of a range: absent when [None]. *)
Record bounds := {
  gt : option value;
  lt : option value;
  gte : option value;
  lte : option value
}.

#[warnings="-register-all"]
Inductive filter :=
| and_filter (nested_filters : list filter)
| permission_filter
| date_range_filter (field_name : string) (range : bounds)
| range_filter (field_name : string) (range : bounds).

End data_filter.

Module order_request.

Record Product := product {
  item_ids : list value;
  item_type : string;
  product_bundle : string
}.

Record Delivery := delivery { single_archive : bool }.

Record Request := build_request {
  name : string;
  products : list Product;
  delivery_spec : Delivery
}.

End order_request.

(** [gpd.GeoDataFrame(records, geometry=..., crs=...)] *)
Record GeoDataFrame := mkGeoDataFrame {
  gdf_records : list (gmap string value);
  gdf_geometry : string;
  gdf_crs : string
}.

(** ** Calls that leave the process *)

Inductive event :=
| EvReadFile (path : string)
| EvSearch (item_types : list string) (geometry : value)
           (search_filter : data_filter.filter)
| EvToFile (gdf : GeoDataFrame) (path : string) (driver : string)
| EvCreateOrder (request : order_request.Request)
| EvWait (order_id : value)
| EvDownloadOrder (order_id : value) (directory : string)
                  (overwrite progress_bar : bool).

Definition is_order_event (ev : event) : bool :=
  match ev with
  | EvCreateOrder _ | EvWait _ | EvDownloadOrder _ _ _ _ => true
  | _ => false
  end.

Definition is_search_event (ev : event) : bool :=
  match ev with
  | EvReadFile _ | EvSearch _ _ _ => true
  | _ => false
  end.

Definition is_read_file (ev : event) : bool :=
  match ev with EvReadFile _ => true | _ => false end.

Definition is_to_file (ev : event) : bool :=
  match ev with EvToFile _ _ _ => true | _ => false end.

Definition is_create_order (ev : event) : bool :=
  match ev with EvCreateOrder _ => true | _ => false end.

(** ** The collaborators

    [W] is the state of everything outside the process (the provider's
    catalog and orders, the file system, the clock).  A call that reaches
    it returns its answer and the next outside state; a library call that
    only computes may still raise. *)
Record Env (W : Type) := {
  (* datetime *)
  datetime_now_strftime : W -> string -> string * W;
  datetime_strptime : string -> string -> result value;
  (* geopandas and shapely *)
  gpd_read_file : W -> string -> result value * W;
  gdf_unary_union : value -> result value;
  shapely_mapping : value -> result (gmap string value);
  shapely_shape : gmap loc (gmap string value) -> value -> result value;
  gpd_GeoDataFrame_init :
    list (gmap string value) -> string -> string -> result unit;
  gdf_to_file : W -> GeoDataFrame -> string -> string -> result unit * W;
  (* planet SDK *)
  order_request_validate : order_request.Request -> result unit;
  pl_data_search :
    W -> gmap loc (gmap string value) -> list string -> value ->
    data_filter.filter ->
    result (list value) * gmap loc (gmap string value) * W;
  pl_orders_create_order : W -> order_request.Request -> result value * W;
  pl_orders_wait : W -> value -> result unit * W;
  pl_orders_download_order :
    W -> value -> string -> bool -> bool -> result unit * W
}.
Arguments datetime_now_strftime {W}.
Arguments datetime_strptime {W}.
Arguments gpd_read_file {W}.
Arguments gdf_unary_union {W}.
Arguments shapely_mapping {W}.
Arguments shapely_shape {W}.
Arguments gpd_GeoDataFrame_init {W}.
Arguments gdf_to_file {W}.
Arguments order_request_validate {W}.
Arguments pl_data_search {W}.
Arguments pl_orders_create_order {W}.
Arguments pl_orders_wait {W}.
Arguments pl_orders_download_order {W}.

(** ** Runs: state, result and emitted events *)

Record state (W : Type) := mkState {
  heap : gmap loc (gmap string value);
  world : W
}.
Arguments mkState {W}.
Arguments heap {W}.
Arguments world {W}.

Record run (W A : Type) := Run {
  outcome : result A;
  final : state W;
  emitted : list event
}.
Arguments Run {W A}.
Arguments outcome {W A}.
Arguments final {W A}.
Arguments emitted {W A}.

Definition M (W A : Type) : Type := state W -> run W A.

Definition ret {W A} (a : A) : M W A := fun s => Run (Ok a) s [].

Definition raise {W A} (e : exn) : M W A := fun s => Run (Raise e) s [].

Definition bind {W A B} (m : M W A) (f : A -> M W B) : M W B :=
  fun s =>
    let r := m s in
    match outcome r with
    | Ok a =>
        let r' := f a (final r) in
        Run (outcome r') (final r') (emitted r ++ emitted r')
    | Raise e => Run (Raise e) (final r) (emitted r)
    end.

Notation "'do' x <~ m ;; k" := (bind m (fun x => k))
  (at level 10, x name, m at level 99, k at level 200).

(** A library call that only computes. *)
Definition lift {W A} (r : result A) : M W A := fun s => Run r s [].

(** A call that reaches the outside: recorded, then answered. *)
Definition call {W A} (ev : event) (f : W -> result A * W) : M W A :=
  fun s =>
    let '(r, w) := f (world s) in
    Run r (mkState (heap s) w) [ev].

(** [for x in xs: body(x)] *)
Fixpoint for_each {W A} (xs : list A) (body : A -> M W unit) : M W unit :=
  match xs with
  | [] => ret tt
  | x :: xs' => do _ <~ body x ;; for_each xs' body
  end.

(** [[f(x) for x in xs]] *)
Fixpoint comprehension {W A B} (f : A -> M W B) (xs : list A) : M W (list B) :=
  match xs with
  | [] => ret []
  | x :: xs' => do y <~ f x ;; do ys <~ comprehension f xs' ;; ret (y :: ys)
  end.

(** ** Dictionaries *)

(** [d[key]] *)
Definition getitem {W} (d : value) (key : string) : M W value :=
  fun s =>
    match d with
    | VDict l =>
        match heap s !! l with
        | Some kv =>
            match kv !! key with
            | Some v => Run (Ok v) s []
            | None => Run (Raise (KeyError key)) s []
            end
        | None => Run (Raise (TypeError "not subscriptable")) s []
        end
    | _ => Run (Raise (TypeError "not subscriptable")) s []
    end.

(** [d.get(key)] *)
Definition dict_get {W} (d : value) (key : string) : M W value :=
  fun s =>
    match d with
    | VDict l =>
        match heap s !! l with
        | Some kv => Run (Ok (default VNone (kv !! key))) s []
        | None => Run (Raise (TypeError "no such object")) s []
        end
    | _ => Run (Raise (AttributeError "no attribute get")) s []
    end.

(** [d.get(key, {})]: the entry itself when there is one, a new empty
    dictionary otherwise. *)
Definition dict_get_or_new {W} (d : value) (key : string) : M W value :=
  fun s =>
    match d with
    | VDict l =>
        match heap s !! l with
        | Some kv =>
            match kv !! key with
            | Some v => Run (Ok v) s []
            | None =>
                let l' := fresh (dom (heap s)) in
                Run (Ok (VDict l')) (mkState (<[l' := ∅]> (heap s)) (world s)) []
            end
        | None => Run (Raise (TypeError "no such object")) s []
        end
    | _ => Run (Raise (AttributeError "no attribute get")) s []
    end.

(** [d[key] = v]: a write into the object [d] names. *)
Definition setitem {W} (d : value) (key : string) (v : value) : M W unit :=
  fun s =>
    match d with
    | VDict l =>
        match heap s !! l with
        | Some kv =>
            Run (Ok tt) (mkState (<[l := <[key := v]> kv]> (heap s)) (world s)) []
        | None => Run (Raise (TypeError "no item assignment")) s []
        end
    | _ => Run (Raise (TypeError "no item assignment")) s []
    end.

(** The entries of [d], for [{**d, ...}]. *)
Definition dict_entries {W} (d : value) : M W (gmap string value) :=
  fun s =>
    match d with
    | VDict l =>
        match heap s !! l with
        | Some kv => Run (Ok kv) s []
        | None => Run (Raise (TypeError "not a mapping")) s []
        end
    | _ => Run (Raise (TypeError "not a mapping")) s []
    end.

(** A new dictionary object. *)
Definition new_dict {W} (kv : gmap string value) : M W value :=
  fun s =>
    let l := fresh (dom (heap s)) in
    Run (Ok (VDict l)) (mkState (<[l := kv]> (heap s)) (world s)) [].

(** ** [os.path.join] for two components *)

Definition starts_with_slash (s : string) : bool :=
  match s with
  | String c _ => Ascii.eqb c "/"%char
  | EmptyString => false
  end.

Fixpoint ends_with_slash (s : string) : bool :=
  match s with
  | EmptyString => false
  | String c EmptyString => Ascii.eqb c "/"%char
  | String _ s' => ends_with_slash s'
  end.

Definition os_path_join (a b : string) : string :=
  if starts_with_slash b then b
  else if (String.eqb a "" || ends_with_slash a)%bool then a +:+ b
  else a +:+ "/" +:+ b.

(** ** The downloader *)

Record PlanetDownloader := {
  api_key : string;
  download_dir : string
}.

Section Pipeline.
Context {W : Type} (env : Env W) (self : PlanetDownloader).

(** [datetime.now().strftime(fmt)] *)
Definition now_strftime (fmt : string) : M W string :=
  fun s =>
    let '(t, w) := datetime_now_strftime env (world s) fmt in
    Run (Ok t) (mkState (heap s) w) [].

(** The SDK's builders check what they are given and may raise
    ([order_request_validate]); [pl_orders_create_order] answers with the
    ["id"] entry of the order it created. *)
Definition _create_order (item_ids : list value) (item_type bundle : string)
  : M W value :=
  let order_req :=
    order_request.build_request
      "planet_download_order"
      [order_request.product item_ids item_type bundle]
      (order_request.delivery true) in
  do _ <~ lift (order_request_validate env order_req) ;;
  call (EvCreateOrder order_req)
       (fun w => pl_orders_create_order env w order_req).

Definition _load_aoi (geometry_info : value) : M W value :=
  match geometry_info with
  | VStr path =>
      do gdf <~ call (EvReadFile path) (fun w => gpd_read_file env w path) ;;
      do union <~ lift (gdf_unary_union env gdf) ;;
      do kv <~ lift (shapely_mapping env union) ;;
      new_dict kv
  | _ => ret geometry_info
  end.

(** One turn of the loop of [_write_metadata]: the record for [item].
    [props] is the record's own property mapping when it has one, so
    the write of ["id"] lands in the record. *)
Definition metadata_record (item : value) : M W (gmap string value) :=
  do props <~ dict_get_or_new item "properties" ;;
  do id <~ dict_get item "id" ;;
  do _ <~ setitem props "id" id ;;
  do g <~ dict_get item "geometry" ;;
  do geom <~ (fun s => lift (shapely_shape env (heap s) g) s) ;;
  do kv <~ dict_entries props ;;
  ret (<["geometry" := geom]> kv).

(** The loop of [_write_metadata]; [records] is the list built so far. *)
Fixpoint metadata_records (metadata : list value)
         (records : list (gmap string value))
  : M W (list (gmap string value)) :=
  match metadata with
  | [] => ret records
  | item :: rest =>
      do record <~ metadata_record item ;;
      metadata_records rest (records ++ [record])
  end.

Definition _write_metadata (metadata : list value) (driver : string)
  : M W unit :=
  let ext := if String.eqb driver "GeoJSON" then "geojson" else "gpkg" in
  do stamp <~ now_strftime "%Y%m%d_%H%M%S" ;;
  let out_path :=
    os_path_join (download_dir self)
                 ("metadata-" +:+ stamp +:+ "." +:+ ext) in
  do records <~ metadata_records metadata [] ;;
  do _ <~ lift (gpd_GeoDataFrame_init env records "geometry" "EPSG:4326") ;;
  let gdf := mkGeoDataFrame records "geometry" "EPSG:4326" in
  call (EvToFile gdf out_path driver)
       (fun w => gdf_to_file env w gdf out_path driver).

(** The filter [search] composes from the parsed dates and the threshold. *)
Definition search_filter_of (start_date end_date cloud_cover : value)
  : data_filter.filter :=
  data_filter.and_filter
    [ data_filter.permission_filter;
      data_filter.date_range_filter
        "acquired"
        {| data_filter.gt := None; data_filter.lt := None;
           data_filter.gte := Some start_date;
           data_filter.lte := Some end_date |};
      data_filter.range_filter
        "cloud_cover"
        {| data_filter.gt := None; data_filter.lt := None;
           data_filter.gte := None;
           data_filter.lte := Some cloud_cover |} ].

Definition search (geometry_info : value) (start_date end_date : string)
           (item_type : list string) (cloud_cover : value)
  : M W (list value) :=
  do aoi <~ _load_aoi geometry_info ;;
  do start_date <~ lift (datetime_strptime env start_date "%Y-%m-%d") ;;
  do end_date <~ lift (datetime_strptime env end_date "%Y-%m-%d") ;;
  let sfilter := search_filter_of start_date end_date cloud_cover in
  fun s =>
    let '(features, h, w) :=
      pl_data_search env (world s) (heap s) item_type aoi sfilter in
    Run features (mkState h w) [EvSearch item_type aoi sfilter].

(** [sys.exit(msg)] *)
Definition sys_exit {A} (msg : string) : M W A :=
  raise (SystemExit (ExitStr msg)).

(** The body of the innermost loop of [download]. *)
Definition order_step (overwrite progress_bar : bool)
           (chunk : list value) (item_type bundle : string) : M W unit :=
  do order_id <~ _create_order chunk item_type bundle ;;
  do _ <~ call (EvWait order_id) (fun w => pl_orders_wait env w order_id) ;;
  call (EvDownloadOrder order_id (download_dir self) overwrite progress_bar)
       (fun w => pl_orders_download_order
                   env w order_id (download_dir self) overwrite progress_bar).

(** [threads] is a parameter of the method; its body never reads it. *)
Definition download (geometry_info : value) (start_date end_date : string)
           (item_types bundles : list string) (cloud_cover : value)
           (threads : Z) (overwrite progress_bar : bool) : M W unit :=
  do items <~ search geometry_info start_date end_date item_types cloud_cover ;;
  match items with
  | [] => sys_exit "No images found. Make filters more flexible."
  | _ :: _ =>
      do item_ids <~ comprehension (fun i => getitem i "id") items ;;
      do _ <~ _write_metadata items "GeoJSON" ;;
      do chunks <~ lift (_chunk_list item_ids MAX_ITEMS_PER_ORDER) ;;
      for_each chunks (fun chunk =>
        for_each item_types (fun item_type =>
          for_each bundles (fun bundle =>
            order_step overwrite progress_bar chunk item_type bundle)))
  end.

End Pipeline.

(** ** How the interpreter ends a run *)

(** Exit status of the process for the result of the script's last call:
    an uncaught [SystemExit] gives its code ([None] is success, anything
    that is not an integer is printed and gives 1), any other uncaught
    exception gives 1. *)
Definition exit_status {A} (r : result A) : Z :=
  match r with
  | Ok _ => 0
  | Raise (SystemExit ExitNone) => 0
  | Raise (SystemExit (ExitInt n)) => Z.land n 255
  | Raise (SystemExit (ExitStr _)) => 1
  | Raise _ => 1
  end.

(** What an uncaught [SystemExit] prints on standard error. *)
Definition exit_message {A} (r : result A) : option string :=
  match r with
  | Raise (SystemExit (ExitStr msg)) => Some msg
  | _ => None
  end.

(** ** The orders a run is expected to place *)

(** One request per chunk, item type and bundle: chunks outermost, bundles
    innermost. *)
Definition order_of (chunk : list value) (item_type bundle : string)
  : order_request.Request :=
  order_request.build_request
    "planet_download_order"
    [order_request.product chunk item_type bundle]
    (order_request.delivery true).

Definition planned_orders (chunks : list (list value))
           (item_types bundles : list string) : list order_request.Request :=
  flat_map (fun chunk =>
    flat_map (fun item_type =>
      map (fun bundle => order_of chunk item_type bundle) bundles)
      item_types)
    chunks.

(** How many events of a kind a trace holds. *)
Definition count_events (kind : event -> bool) (es : list event) : nat :=
  length (List.filter kind es).

(** Submit, wait, download for one order. *)
Definition order_events (directory : string) (overwrite progress_bar : bool)
           (ro : order_request.Request * value) : list event :=
  [ EvCreateOrder (fst ro);
    EvWait (snd ro);
    EvDownloadOrder (snd ro) directory overwrite progress_bar ].

(** ** What the persister may do to the store *)

(** [l] is the property mapping of one of the [records], in the store [h]. *)
Definition is_properties_of (h : gmap loc (gmap string value))
           (records : list value) (l : loc) : Prop :=
  exists li di,
    In (VDict li) records /\ h !! li = Some di
    /\ di !! "properties" = Some (VDict l).

(** The store [h] against the store [h0] the persister started from: a
    dictionary of [h0] is still there, with the same entries except
    perhaps at ["id"], and with the very same entries unless it is the
    property mapping of a record; a dictionary made since has no
    ["properties"] entry. *)
Definition persister_inv (h0 : gmap loc (gmap string value))
           (records : list value) (h : gmap loc (gmap string value)) : Prop :=
  (forall l kv,
      h0 !! l = Some kv ->
      exists kv',
        h !! l = Some kv'
        /\ (forall key, key <> "id" -> kv' !! key = kv !! key)
        /\ (~ is_properties_of h0 records l -> kv' = kv))
  /\ (forall l kv',
        h0 !! l = None -> h !! l = Some kv' -> kv' !! "properties" = None).

(** The entries of the dictionary a value names. *)
Definition entries_of (h : gmap loc (gmap string value)) (v : value)
  : option (gmap string value) :=
  match v with
  | VDict l => h !! l
  | _ => None
  end.

(** The property mapping of a record. *)
Definition properties_of (h : gmap loc (gmap string value)) (item : value)
  : option (gmap string value) :=
  match entries_of h item with
  | Some kv =>
      match kv !! "properties" with
      | Some props => entries_of h props
      | None => None
      end
  | None => None
  end.

(** The geometry of a record. *)
Definition geometry_of (h : gmap loc (gmap string value)) (item : value)
  : option (gmap string value) :=
  match entries_of h item with
  | Some kv =>
      match kv !! "geometry" with
      | Some g => entries_of h g
      | None => None
      end
  | None => None
  end.

(** No record was written to between the stores [h] and [h']: each one
    has its entries, its property mapping and its geometry as before. *)
Definition records_unchanged (h h' : gmap loc (gmap string value))
           (records : list value) : Prop :=
  Forall (fun item =>
            entries_of h' item = entries_of h item
            /\ properties_of h' item = properties_of h item
            /\ geometry_of h' item = geometry_of h item)
         records.

(** A run of [m] that returns has placed the orders [reqs], one after the
    other, each one submitted, waited for and downloaded. *)
Definition places {W} (directory : string) (overwrite progress_bar : bool)
           (reqs : list order_request.Request) (m : M W unit) : Prop :=
  forall s,
    outcome (m s) = Ok tt ->
    exists order_ids,
      length order_ids = length reqs
      /\ emitted (m s)
         = flat_map (order_events directory overwrite progress_bar)
                    (combine reqs order_ids).

(** What the persister needs of a record: a dictionary whose
    ["properties"] entry, when there is one, is a dictionary. *)
Definition has_shape (h : gmap loc (gmap string value))
           (item : value) : Prop :=
  exists li di,
    item = VDict li /\ h !! li = Some di
    /\ (di !! "properties" = None
        \/ exists lp, di !! "properties" = Some (VDict lp)
                      /\ is_Some (h !! lp)).

(** The same, as a test. *)
Definition record_shaped (h : gmap loc (gmap string value))
           (item : value) : bool :=
  match item with
  | VDict li =>
      match h !! li with
      | Some di =>
          match di !! "properties" with
          | None => true
          | Some (VDict lp) =>
              match h !! lp with Some _ => true | None => false end
          | Some _ => false
          end
      | None => false
      end
  | _ => false
  end.

(** [item["id"]] can be read. *)
Definition record_has_id (h : gmap loc (gmap string value))
           (item : value) : bool :=
  match item with
  | VDict li =>
      match h !! li with
      | Some di => match di !! "id" with Some _ => true | None => false end
      | None => false
      end
  | _ => false
  end.

(** A scene record as the catalog hands it out. *)
Definition record_well_formed (h : gmap loc (gmap string value))
           (item : value) : bool :=
  (record_shaped h item && record_has_id h item)%bool.

(** A geospatial layer that never raises on what the persister gives it. *)
Definition geo_layer_reliable {W} (env : Env W) : Prop :=
  (forall h g, exists geom, shapely_shape env h g = Ok geom)
  /\ (forall rows, gpd_GeoDataFrame_init env rows "geometry" "EPSG:4326" = Ok tt)
  /\ (forall w gdf path driver, fst (gdf_to_file env w gdf path driver) = Ok tt).

(** An order service, and the SDK's request check, that never raise. *)
Definition order_service_reliable {W} (env : Env W) : Prop :=
  (forall req, order_request_validate env req = Ok tt)
  /\ (forall w req, exists order_id,
         fst (pl_orders_create_order env w req) = Ok order_id)
  /\ (forall w order_id, fst (pl_orders_wait env w order_id) = Ok tt)
  /\ (forall w order_id directory overwrite progress_bar,
         fst (pl_orders_download_order
                env w order_id directory overwrite progress_bar) = Ok tt).

(** ** A small environment to run the pipeline in

    The catalog answers [found]; the order service numbers its orders from
    the outside state, a counter; everything else succeeds. *)
Definition demo_env (found : list value) : Env nat := {|
  datetime_now_strftime w _ := ("20200101_000000", w);
  datetime_strptime s _ := Ok (VForeign s);
  gpd_read_file w path := (Ok (VForeign path), w);
  gdf_unary_union g := Ok g;
  shapely_mapping _ := Ok ∅;
  shapely_shape _ _ := Ok (VForeign "shape");
  gpd_GeoDataFrame_init _ _ _ := Ok tt;
  gdf_to_file w _ _ _ := (Ok tt, w);
  order_request_validate _ := Ok tt;
  pl_data_search w h _ _ _ := (Ok found, h, w);
  pl_orders_create_order w _ := (Ok (VInt (Z.of_nat w)), S w);
  pl_orders_wait w _ := (Ok tt, w);
  pl_orders_download_order w _ _ _ _ := (Ok tt, w)
|}.

Definition demo_self : PlanetDownloader :=
  {| api_key := "key"; download_dir := "./planet_downloads" |}.

(** Two scene records: dictionaries 1 and 2, with property mappings 3 and 4
    and one geometry, 5. *)
Definition demo_heap : gmap loc (gmap string value) :=
  {[ 1%positive := {[ "id" := VStr "a"; "geometry" := VDict 5%positive;
                      "properties" := VDict 3%positive ]};
     2%positive := {[ "id" := VStr "b"; "geometry" := VDict 5%positive;
                      "properties" := VDict 4%positive ]};
     3%positive := {[ "cloud_cover" := VFloat (1 # 10) ]};
     4%positive := {[ "cloud_cover" := VFloat (2 # 10) ]};
     5%positive := {[ "type" := VStr "Polygon" ]} ]}.

Definition demo_items : list value := [VDict 1%positive; VDict 2%positive].

Definition demo_state : state nat := mkState demo_heap 0.

Definition demo_geometry : value := VDict 5%positive.

Definition demo_item_types : list string := ["PSScene"; "REScene"].

Definition demo_bundles : list string := ["analytic_udm2"; "visual"].

(** The one call the demo search makes. *)
Definition demo_search_event : event :=
  EvSearch demo_item_types demo_geometry
           (search_filter_of (VForeign "2020-01-01") (VForeign "2020-02-01")
                             (VFloat (2 # 10))).

(** The demo run: two records, two item types, two bundles. *)
Definition demo_download : run nat unit :=
  download (demo_env demo_items) demo_self demo_geometry
           "2020-01-01" "2020-02-01" demo_item_types demo_bundles
           (VFloat (2 # 10)) 4 false true demo_state.

(** An order service whose [wait] fails. *)
Definition failing_wait_env (found : list value) : Env nat := {|
  datetime_now_strftime := datetime_now_strftime (demo_env found);
  datetime_strptime := datetime_strptime (demo_env found);
  gpd_read_file := gpd_read_file (demo_env found);
  gdf_unary_union := gdf_unary_union (demo_env found);
  shapely_mapping := shapely_mapping (demo_env found);
  shapely_shape := shapely_shape (demo_env found);
  gpd_GeoDataFrame_init := gpd_GeoDataFrame_init (demo_env found);
  gdf_to_file := gdf_to_file (demo_env found);
  order_request_validate := order_request_validate (demo_env found);
  pl_data_search := pl_data_search (demo_env found);
  pl_orders_create_order := pl_orders_create_order (demo_env found);
  pl_orders_wait w _ := (Raise (CollaboratorError "order failed"), w);
  pl_orders_download_order := pl_orders_download_order (demo_env found)
|}.

(** ** The calls to the order service in a trace *)

Definition order_calls (es : list event) : list event :=
  List.filter is_order_event es.

(** Whatever a run of [m] does, its calls are an initial part of the
    submit, wait and download of the orders [reqs], in order; and all of
    them when the run returns. *)
Definition attempts {W} (directory : string) (overwrite progress_bar : bool)
           (reqs : list order_request.Request) (m : M W unit) : Prop :=
  forall s,
    exists order_ids,
      length order_ids = length reqs
      /\ emitted (m s)
         `prefix_of` flat_map (order_events directory overwrite progress_bar)
                              (combine reqs order_ids)
      /\ (outcome (m s) = Ok tt ->
          emitted (m s)
          = flat_map (order_events directory overwrite progress_bar)
                     (combine reqs order_ids)).

(** What [download] hands to its collaborators: the item types to the
    catalog, a GeoJSON table under the download directory to the file
    layer, one product of a listed item type and bundle in each request,
    and the download directory and the two flags to each download. *)
Definition call_settings (self : PlanetDownloader)
           (item_types bundles : list string) (overwrite progress_bar : bool)
           (ev : event) : Prop :=
  match ev with
  | EvReadFile _ => True
  | EvSearch its _ _ => its = item_types
  | EvToFile gdf path driver =>
      driver = "GeoJSON"
      /\ gdf_geometry gdf = "geometry" /\ gdf_crs gdf = "EPSG:4326"
      /\ String.prefix (download_dir self) path = true
  | EvCreateOrder req =>
      exists chunk item_type bundle,
        In item_type item_types /\ In bundle bundles
        /\ req = order_of chunk item_type bundle
  | EvWait _ => True
  | EvDownloadOrder _ directory o p =>
      directory = download_dir self /\ o = overwrite /\ p = progress_bar
  end.

(** ** The rows of the metadata table *)

(** The entry [key] of the property mapping of a record. *)
Definition record_property (h : gmap loc (gmap string value))
           (item : value) (key : string) : option value :=
  match properties_of h item with
  | Some props => props !! key
  | None => None
  end.

(** No record is the property mapping of a record. *)
Definition records_separate (h : gmap loc (gmap string value))
           (records : list value) : Prop :=
  forall li, In (VDict li) records -> ~ is_properties_of h records li.

(** The row [_write_metadata] makes of a record of the store [h]: the
    record's ["id"] ([None] without one), the shape of its ["geometry"],
    and its properties under their own keys. *)
Definition row_of_record {W} (env : Env W) (h : gmap loc (gmap string value))
           (item : value) (row : gmap string value) : Prop :=
  exists li di,
    item = VDict li /\ h !! li = Some di
    /\ row !! "id" = Some (default VNone (di !! "id"))
    /\ (exists h' geom,
           shapely_shape env h' (default VNone (di !! "geometry")) = Ok geom
           /\ row !! "geometry" = Some geom)
    /\ (forall key, key <> "id" -> key <> "geometry" ->
                    row !! key = record_property h item key).

Definition is_dict (v : value) : bool :=
  match v with VDict _ => true | _ => false end.

(** ** The constructor *)

(** What [__init__] reaches: the process environment, the file system
    and the SDK's session. *)
Record InitEnv (W : Type) := {
  os_getenv : string -> option string;
  os_makedirs : W -> string -> result unit * W;
  Planet : W -> result unit * W
}.
Arguments os_getenv {W}.
Arguments os_makedirs {W}.
Arguments Planet {W}.

Inductive init_event :=
| EvMakedirs (path : string)
| EvPlanet.

(** Truth of a string or [None]. *)
Definition truthy (o : option string) : bool :=
  match o with
  | Some s => negb (String.eqb s "")
  | None => false
  end.

(** [a or b] *)
Definition py_or (a b : option string) : option string :=
  if truthy a then a else b.

Record init_run (W : Type) := InitRun {
  init_outcome : result PlanetDownloader;
  init_world : W;
  init_emitted : list init_event
}.
Arguments InitRun {W}.
Arguments init_outcome {W}.
Arguments init_world {W}.
Arguments init_emitted {W}.

(** [PlanetDownloader(api_key, download_dir)]; [os.makedirs] is called
    with [exist_ok=True], and [Planet()] is given no argument. *)
Definition __init__ {W} (ienv : InitEnv W) (api_key : option string)
           (download_dir : string) (w : W) : init_run W :=
  match py_or api_key (os_getenv ienv "PL_API_KEY") with
  | Some key =>
      if String.eqb key "" then
        InitRun (Raise (ValueError
          "Planet API key not provided. Set PL_API_KEYenv var or pass api_key to PlanetDownloader()."))
          w []
      else
        match os_makedirs ienv w download_dir with
        | (Raise e, w1) => InitRun (Raise e) w1 [EvMakedirs download_dir]
        | (Ok _, w1) =>
            match Planet ienv w1 with
            | (Raise e, w2) =>
                InitRun (Raise e) w2 [EvMakedirs download_dir; EvPlanet]
            | (Ok _, w2) =>
                InitRun (Ok {| api_key := key; download_dir := download_dir |})
                        w2 [EvMakedirs download_dir; EvPlanet]
            end
        end
  | None =>
      InitRun (Raise (ValueError
        "Planet API key not provided. Set PL_API_KEYenv var or pass api_key to PlanetDownloader()."))
        w []
  end.

(** ** The command line *)

Module cli.

(** What [parse_args] returns. *)
Record Args := {
  aoi : string;
  start_date : string;
  end_date : string;
  item_types : list string;
  bundles : list string;
  cloud_cover : Q;
  output_dir : string;
  overwrite : bool;
  no_progress : bool
}.

(** The namespace when only the required options are given. *)
Definition defaults (aoi start_date end_date : string) : Args := {|
  aoi := aoi;
  start_date := start_date;
  end_date := end_date;
  item_types := ["PSScene"];
  bundles := ["analytic_udm2"];
  cloud_cover := 2 # 10;
  output_dir := "./planet_downloads";
  overwrite := false;
  no_progress := false
|}.

Record cli_run (W : Type) := CliRun {
  cli_outcome : result unit;
  cli_final : state W;
  cli_init_emitted : list init_event;
  cli_emitted : list event
}.
Arguments CliRun {W}.
Arguments cli_outcome {W}.
Arguments cli_final {W}.
Arguments cli_init_emitted {W}.
Arguments cli_emitted {W}.

(** [main()], from the parsed arguments on: the downloader is made with
    no key of its own, and [download] is called without [threads], which
    is then 4. *)
Definition main {W} (ienv : InitEnv W) (env : Env W) (args : Args)
           (s : state W) : cli_run W :=
  let i := __init__ ienv None (output_dir args) (world s) in
  match init_outcome i with
  | Raise e =>
      CliRun (Raise e) (mkState (heap s) (init_world i)) (init_emitted i) []
  | Ok downloader =>
      let r :=
        download env downloader (VStr (aoi args))
                 (start_date args) (end_date args)
                 (item_types args) (bundles args)
                 (VFloat (cloud_cover args)) 4
                 (overwrite args) (negb (no_progress args))
                 (mkState (heap s) (init_world i)) in
      CliRun (outcome r) (final r) (init_emitted i) (emitted r)
  end.

(** [sys.exit(main())] *)
Definition script {W} (ienv : InitEnv W) (env : Env W) (args : Args)
           (s : state W) : cli_run W :=
  let r := main ienv env args s in
  match cli_outcome r with
  | Ok _ =>
      CliRun (Raise (SystemExit ExitNone)) (cli_final r)
             (cli_init_emitted r) (cli_emitted r)
  | Raise e => r
  end.

End cli.

(** ** More small environments *)

(** A process environment holding the key [key]. *)
Definition demo_init_env (key : option string) : InitEnv nat := {|
  os_getenv name := if String.eqb name "PL_API_KEY" then key else None;
  os_makedirs w _ := (Ok tt, w);
  Planet w := (Ok tt, w)
|}.

(** A geometry library that fails on every geometry. *)
Definition failing_shape_env (found : list value) : Env nat := {|
  datetime_now_strftime := datetime_now_strftime (demo_env found);
  datetime_strptime := datetime_strptime (demo_env found);
  gpd_read_file := gpd_read_file (demo_env found);
  gdf_unary_union := gdf_unary_union (demo_env found);
  shapely_mapping := shapely_mapping (demo_env found);
  shapely_shape _ _ := Raise (CollaboratorError "bad geometry");
  gpd_GeoDataFrame_init := gpd_GeoDataFrame_init (demo_env found);
  gdf_to_file := gdf_to_file (demo_env found);
  order_request_validate := order_request_validate (demo_env found);
  pl_data_search := pl_data_search (demo_env found);
  pl_orders_create_order := pl_orders_create_order (demo_env found);
  pl_orders_wait := pl_orders_wait (demo_env found);
  pl_orders_download_order := pl_orders_download_order (demo_env found)
|}.

(** A date parser that takes only ten characters. *)
Definition strict_dates_env (found : list value) : Env nat := {|
  datetime_now_strftime := datetime_now_strftime (demo_env found);
  datetime_strptime s _ :=
    if Nat.eqb (String.length s) 10 then Ok (VForeign s)
    else Raise (ValueError "time data does not match format");
  gpd_read_file := gpd_read_file (demo_env found);
  gdf_unary_union := gdf_unary_union (demo_env found);
  shapely_mapping := shapely_mapping (demo_env found);
  shapely_shape := shapely_shape (demo_env found);
  gpd_GeoDataFrame_init := gpd_GeoDataFrame_init (demo_env found);
  gdf_to_file := gdf_to_file (demo_env found);
  order_request_validate := order_request_validate (demo_env found);
  pl_data_search := pl_data_search (demo_env found);
  pl_orders_create_order := pl_orders_create_order (demo_env found);
  pl_orders_wait := pl_orders_wait (demo_env found);
  pl_orders_download_order := pl_orders_download_order (demo_env found)
|}.

(** A record with no ["id"], after one that has it. *)
Definition demo_heap_no_id : gmap loc (gmap string value) :=
  {[ 1%positive := {[ "id" := VStr "a"; "geometry" := VDict 5%positive;
                      "properties" := VDict 3%positive ]};
     2%positive := {[ "geometry" := VDict 5%positive;
                      "properties" := VDict 4%positive ]};
     3%positive := {[ "cloud_cover" := VFloat (1 # 10) ]};
     4%positive := {[ "cloud_cover" := VFloat (2 # 10) ]};
     5%positive := {[ "type" := VStr "Polygon" ]} ]}.

(** ** Orders placed, each with the id the service gave it *)

(** From the outside state [w], the orders [reqs] are placed one after
    the other, leaving the trace [es] and the outside state [w']: each
    request passes the SDK's check and is submitted, the id waited for
    and downloaded is the one [create_order] answered, and each call is
    made in the state the call before left, and returns. *)
Inductive orders_placed {W} (env : Env W) (directory : string)
          (overwrite progress_bar : bool)
  : W -> list order_request.Request -> list event -> W -> Prop :=
| placed_none w :
    orders_placed env directory overwrite progress_bar w [] [] w
| placed_next w req order_id w1 w2 w3 reqs es w' :
    order_request_validate env req = Ok tt ->
    pl_orders_create_order env w req = (Ok order_id, w1) ->
    pl_orders_wait env w1 order_id = (Ok tt, w2) ->
    pl_orders_download_order env w2 order_id directory overwrite progress_bar
    = (Ok tt, w3) ->
    orders_placed env directory overwrite progress_bar w3 reqs es w' ->
    orders_placed env directory overwrite progress_bar w (req :: reqs)
      (EvCreateOrder req :: EvWait order_id
       :: EvDownloadOrder order_id directory overwrite progress_bar :: es)
      w'.

(** ** A geospatial layer that wants its geometry column *)

(** As geopandas does, the table constructor looks the geometry column up
    among the keys of the records and raises [ValueError] when no record
    has it; an empty list of records has no column at all. *)
Definition geopandas_env (found : list value) : Env nat := {|
  datetime_now_strftime := datetime_now_strftime (demo_env found);
  datetime_strptime := datetime_strptime (demo_env found);
  gpd_read_file := gpd_read_file (demo_env found);
  gdf_unary_union := gdf_unary_union (demo_env found);
  shapely_mapping := shapely_mapping (demo_env found);
  shapely_shape := shapely_shape (demo_env found);
  gpd_GeoDataFrame_init rows geometry _ :=
    if existsb (fun row : gmap string value =>
                  match row !! geometry with Some _ => true | None => false end)
               rows
    then Ok tt
    else Raise (ValueError "Unknown column geometry");
  gdf_to_file := gdf_to_file (demo_env found);
  order_request_validate := order_request_validate (demo_env found);
  pl_data_search := pl_data_search (demo_env found);
  pl_orders_create_order := pl_orders_create_order (demo_env found);
  pl_orders_wait := pl_orders_wait (demo_env found);
  pl_orders_download_order := pl_orders_download_order (demo_env found)
|}.

(** [None], a boolean, a number or a string: a value with no [get]. *)
Definition is_scalar (v : value) : bool :=
  match v with
  | VNone | VBool _ | VInt _ | VFloat _ | VStr _ => true
  | VDict _ | VForeign _ => false
  end.

(** What [download] passes on, as far as the name and the product of a
    request go: as [call_settings], without the delivery. *)
Definition passed_settings (self : PlanetDownloader)
           (item_types bundles : list string) (overwrite progress_bar : bool)
           (ev : event) : Prop :=
  match ev with
  | EvCreateOrder req =>
      exists chunk item_type bundle,
        In item_type item_types /\ In bundle bundles
        /\ order_request.name req = "planet_download_order"
        /\ order_request.products req
           = [order_request.product chunk item_type bundle]
  | _ => call_settings self item_types bundles overwrite progress_bar ev
  end.

(** * Properties *)

(** ** The batcher on small inputs *)

Example chunk_7_by_3 :
  _chunk_list [1; 2; 3; 4; 5; 6; 7] 3 = Ok [[1; 2; 3]; [4; 5; 6]; [7]].
Proof. reflexivity. Qed.

Example chunk_6_by_3 :
  _chunk_list [1; 2; 3; 4; 5; 6] 3 = Ok [[1; 2; 3]; [4; 5; 6]].
Proof. reflexivity. Qed.

Example chunk_empty : _chunk_list (@nil nat) 3 = Ok [].
Proof. reflexivity. Qed.

Example chunk_by_zero :
  _chunk_list [1; 2] 0 = Raise (ValueError "range() arg 3 must not be zero").
Proof. reflexivity. Qed.

Example chunk_by_negative : _chunk_list [1; 2] (-1) = Ok [].
Proof. reflexivity. Qed.

(** ** Facts about the batcher *)

Section ChunkFacts.
Context {A : Type}.
Implicit Types (l : list A) (c m k : nat).

Lemma slice_chunk l c k :
  Py.slice l (0 + Z.of_nat k * Z.of_nat c) (0 + Z.of_nat k * Z.of_nat c + Z.of_nat c)
  = firstn c (skipn (k * c) l).
Proof.
  unfold Py.slice, Py.slice_index.
  set (n := length l).
  destruct (Z.ltb_spec (0 + Z.of_nat k * Z.of_nat c) 0); [lia|].
  destruct (Z.ltb_spec (0 + Z.of_nat k * Z.of_nat c + Z.of_nat c) 0); [lia|].
  destruct (Nat.le_gt_cases n (k * c)) as [Hge|Hlt].
  - rewrite !(skipn_all2 l) by (fold n; lia). now rewrite !firstn_nil.
  - replace (Z.to_nat (Z.min (0 + Z.of_nat k * Z.of_nat c) (Z.of_nat n))) with (k * c) by lia.
    destruct (Nat.le_gt_cases n (k * c + c)) as [Hge'|Hlt'].
    + rewrite !firstn_all2; [reflexivity | |]; rewrite length_skipn; fold n; lia.
    + f_equal. lia.
Qed.

Lemma _chunk_list_pos l c :
  0 < c ->
  _chunk_list l (Z.of_nat c) = Ok (chunks_upto l c (ceil_div (length l) c)).
Proof.
  intros Hc. unfold _chunk_list, Py.range.
  destruct (Z.eqb_spec (Z.of_nat c) 0); [lia|].
  f_equal. unfold chunks_upto. rewrite map_map.
  replace (Z.to_nat (Py.range_len 0 (Z.of_nat (length l)) (Z.of_nat c)))
    with (ceil_div (length l) c).
  - apply map_ext. intros k. apply slice_chunk.
  - unfold Py.range_len, ceil_div.
    destruct (Z.ltb_spec 0 (Z.of_nat c)); [|lia].
    destruct (Z.ltb_spec 0 (Z.of_nat (length l))) as [Hn|Hn].
    + replace (length l + c - 1) with ((length l - 1) + 1 * c) by lia.
      rewrite Nat.div_add by lia.
      rewrite Z2Nat.inj_add; [| apply Z.div_pos; lia | lia].
      replace (Z.of_nat (length l) - 0 - 1)%Z with (Z.of_nat (length l - 1)) by lia.
      rewrite <- Nat2Z.inj_div, Nat2Z.id. reflexivity.
    + replace (length l) with 0 by lia. simpl.
      rewrite Nat.div_small by lia. reflexivity.
Qed.

Lemma concat_chunks_upto l c m :
  concat (chunks_upto l c m) = firstn (m * c) l.
Proof.
  unfold chunks_upto. induction m as [|m IH].
  - reflexivity.
  - rewrite seq_S, map_app, concat_app, IH. simpl.
    rewrite app_nil_r, take_take_drop. f_equal. lia.
Qed.

Lemma ceil_div_covers n c : 0 < c -> n <= ceil_div n c * c.
Proof.
  intros Hc. unfold ceil_div.
  pose proof (Nat.div_mod_eq (n + c - 1) c) as E.
  pose proof (Nat.mod_upper_bound (n + c - 1) c). nia.
Qed.

Lemma ceil_div_tight n c : 0 < c -> 0 < n -> (ceil_div n c - 1) * c < n.
Proof.
  intros Hc Hn. unfold ceil_div.
  pose proof (Nat.div_mod_eq (n + c - 1) c) as E.
  pose proof (Nat.mod_upper_bound (n + c - 1) c). nia.
Qed.

Lemma ceil_div_0 c : 0 < c -> ceil_div 0 c = 0.
Proof. intros Hc. unfold ceil_div. apply Nat.div_small. lia. Qed.

Lemma length_chunks_upto l c m : length (chunks_upto l c m) = m.
Proof. unfold chunks_upto. now rewrite length_map, length_seq. Qed.

Lemma lookup_chunks_upto l c m k :
  k < m -> chunks_upto l c m !! k = Some (firstn c (skipn (k * c) l)).
Proof.
  intros Hk. unfold chunks_upto. rewrite list_lookup_fmap.
  rewrite lookup_seq_lt by lia. reflexivity.
Qed.

Lemma length_chunk l c k :
  length (firstn c (skipn (k * c) l)) = Nat.min c (length l - k * c).
Proof. now rewrite length_firstn, length_skipn. Qed.

End ChunkFacts.

(** ** Facts about runs *)

Section RunFacts.
Context {W : Type}.
Implicit Types (s : state W) (P : event -> Prop).

Lemma bind_ok {A B} (m : M W A) (f : A -> M W B) s a :
  outcome (m s) = Ok a ->
  bind m f s =
  Run (outcome (f a (final (m s)))) (final (f a (final (m s))))
      (emitted (m s) ++ emitted (f a (final (m s)))).
Proof. intros E. unfold bind. now rewrite E. Qed.

Lemma bind_raise {A B} (m : M W A) (f : A -> M W B) s e :
  outcome (m s) = Raise e ->
  bind m f s = Run (Raise e) (final (m s)) (emitted (m s)).
Proof. intros E. unfold bind. now rewrite E. Qed.

(** A run of [bind] that returns went through both parts. *)
Lemma bind_inv {A B} (m : M W A) (f : A -> M W B) s b :
  outcome (bind m f s) = Ok b ->
  exists a, outcome (m s) = Ok a /\ outcome (f a (final (m s))) = Ok b.
Proof.
  unfold bind. destruct (outcome (m s)) as [a|e] eqn:E; simpl; [|discriminate].
  intros Hb. now exists a.
Qed.

(** Events of a kind: what every part emits, the whole emits. *)
Lemma bind_emitted_ok {A B} P (m : M W A) (f : A -> M W B) s :
  Forall P (emitted (m s)) ->
  (forall a, outcome (m s) = Ok a -> Forall P (emitted (f a (final (m s))))) ->
  Forall P (emitted (bind m f s)).
Proof.
  intros Hm Hf. unfold bind.
  destruct (outcome (m s)) as [a|e]; simpl; [|exact Hm].
  apply Forall_app. split; [exact Hm | now apply Hf].
Qed.

Lemma bind_emitted {A B} P (m : M W A) (f : A -> M W B) s :
  Forall P (emitted (m s)) ->
  (forall a, Forall P (emitted (f a (final (m s))))) ->
  Forall P (emitted (bind m f s)).
Proof. intros Hm Hf. apply bind_emitted_ok; auto. Qed.

Lemma for_each_emitted {A} P (xs : list A) (body : A -> M W unit) :
  (forall x s, In x xs -> Forall P (emitted (body x s))) ->
  forall s, Forall P (emitted (for_each xs body s)).
Proof.
  induction xs as [|x xs IH]; intros Hbody s; simpl.
  - constructor.
  - apply bind_emitted.
    + apply Hbody. now left.
    + intros _. apply IH. intros y s' Hy. apply Hbody. now right.
Qed.

Lemma call_emitted {A} P ev (f : W -> result A * W) s :
  P ev -> Forall P (emitted (call ev f s)).
Proof. intros H. unfold call. destruct (f (world s)). simpl. now constructor. Qed.

Lemma call_run {A} ev (f : W -> result A * W) s :
  call ev f s = Run (fst (f (world s))) (mkState (heap s) (snd (f (world s)))) [ev].
Proof. unfold call. now destruct (f (world s)). Qed.

(** Reading a dictionary changes nothing and reaches nothing. *)
Lemma getitem_pure d key s :
  final (getitem d key s) = s /\ emitted (getitem d key s) = [].
Proof.
  unfold getitem. destruct d; simpl; auto.
  destruct (heap s !! l) as [kv|]; simpl; auto.
  destruct (kv !! key); simpl; auto.
Qed.

Lemma dict_get_pure d key s :
  final (dict_get d key s) = s /\ emitted (dict_get d key s) = [].
Proof.
  unfold dict_get. destruct d; simpl; auto.
  destruct (heap s !! l); simpl; auto.
Qed.

Lemma dict_entries_pure d s :
  final (dict_entries d s) = s /\ emitted (dict_entries d s) = [].
Proof.
  unfold dict_entries. destruct d; simpl; auto.
  destruct (heap s !! l); simpl; auto.
Qed.

Lemma dict_get_or_new_emitted d key s :
  emitted (dict_get_or_new d key s) = [].
Proof.
  unfold dict_get_or_new. destruct d; simpl; auto.
  destruct (heap s !! l) as [kv|]; simpl; auto.
  destruct (kv !! key); simpl; auto.
Qed.

Lemma setitem_emitted d key v s : emitted (setitem d key v s) = [].
Proof.
  unfold setitem. destruct d; simpl; auto.
  destruct (heap s !! l); simpl; auto.
Qed.

Lemma bind_pure {A B} (m : M W A) (f : A -> M W B) s :
  final (m s) = s /\ emitted (m s) = [] ->
  (forall a, final (f a s) = s /\ emitted (f a s) = []) ->
  final (bind m f s) = s /\ emitted (bind m f s) = [].
Proof.
  intros [Hf He] Hk. unfold bind. rewrite Hf, He.
  destruct (outcome (m s)) as [a|e]; simpl; [apply Hk | auto].
Qed.

Lemma comprehension_getitem_pure key (xs : list value) s :
  final (comprehension (fun i => getitem i key) xs s) = s
  /\ emitted (comprehension (fun i => getitem i key) xs s) = [].
Proof.
  induction xs as [|x xs IH]; simpl; [auto|].
  apply bind_pure; [apply getitem_pure|]. intros y.
  apply bind_pure; [exact IH|]. intros ys. simpl. auto.
Qed.

Lemma comprehension_length {A B} (f : A -> M W B) xs s ys :
  outcome (comprehension f xs s) = Ok ys -> length ys = length xs.
Proof.
  revert s ys. induction xs as [|x xs IH]; intros s ys; simpl.
  - intros [= <-]. reflexivity.
  - intros H. apply bind_inv in H as (y & _ & H).
    apply bind_inv in H as (ys' & H' & H). simpl in H.
    injection H as <-. simpl. f_equal. eapply IH, H'.
Qed.

End RunFacts.

(** ** The batcher partitions its input *)

Lemma chunk_start_in_range {A} (l : list A) c k :
  0 < c -> k < ceil_div (length l) c -> k * c < length l.
Proof.
  intros Hc Hk.
  destruct (Nat.eq_dec (length l) 0) as [E|E].
  - rewrite E, ceil_div_0 in Hk by exact Hc. lia.
  - pose proof (ceil_div_tight (length l) c Hc) as Ht.
    assert (k * c <= (ceil_div (length l) c - 1) * c)
      by (apply Nat.mul_le_mono_r; lia).
    lia.
Qed.

Lemma chunk_list_partition_aux {A} (items : list A) (C : Z) :
  (1 <= C)%Z ->
  exists chunks,
    _chunk_list items C = Ok chunks
    /\ concat chunks = items
    /\ Forall (fun chunk => (Z.of_nat (length chunk) <= C)%Z) chunks
    /\ (forall i chunk,
          chunks !! i = Some chunk -> S i < length chunks ->
          Z.of_nat (length chunk) = C)
    /\ length chunks = ceil_div (length items) (Z.to_nat C).
Proof.
  intros HC.
  set (c := Z.to_nat C).
  assert (Hc : 0 < c) by (unfold c; lia).
  replace C with (Z.of_nat c) by (unfold c; lia).
  set (m := ceil_div (length items) c).
  exists (chunks_upto items c m).
  split; [now apply _chunk_list_pos|].
  split.
  { rewrite concat_chunks_upto. apply take_ge.
    now apply ceil_div_covers. }
  split.
  { unfold chunks_upto. apply Forall_map, Forall_forall. intros k _.
    rewrite length_chunk. lia. }
  split.
  { intros i chunk Hi Hlast.
    rewrite length_chunks_upto in Hlast.
    rewrite lookup_chunks_upto in Hi by lia.
    injection Hi as <-. rewrite length_chunk.
    pose proof (chunk_start_in_range items c (S i) Hc Hlast). simpl in *. lia. }
  now rewrite length_chunks_upto.
Qed.

(** C1: for a chunk size of at least 1, [_chunk_list] yields chunks that
    concatenate back to the input in order; no chunk is longer than the
    chunk size, and every chunk but the last has exactly that length.
    There are as many chunks as the ceiling of length over chunk size. *)
Theorem chunk_list_partition {A} (items : list A) (C : Z) :
  (1 <= C)%Z ->
  exists chunks,
    _chunk_list items C = Ok chunks
    /\ concat chunks = items
    /\ Forall (fun chunk => (Z.of_nat (length chunk) <= C)%Z) chunks
    /\ (forall i chunk,
          chunks !! i = Some chunk -> S i < length chunks ->
          Z.of_nat (length chunk) = C)
    /\ length chunks = ceil_div (length items) (Z.to_nat C).
Proof. apply chunk_list_partition_aux. Qed.

Lemma chunk_list_partition_witness :
  exists chunks,
    _chunk_list [1; 2; 3; 4; 5; 6; 7] 3 = Ok chunks
    /\ concat chunks = [1; 2; 3; 4; 5; 6; 7]
    /\ Forall (fun chunk => (Z.of_nat (length chunk) <= 3)%Z) chunks
    /\ (forall i chunk,
          chunks !! i = Some chunk -> S i < length chunks ->
          Z.of_nat (length chunk) = 3%Z)
    /\ length chunks = ceil_div (length [1; 2; 3; 4; 5; 6; 7]) (Z.to_nat 3).
Proof. apply (chunk_list_partition [1; 2; 3; 4; 5; 6; 7] 3). lia. Defined.

Lemma chunk_list_nonempty_chunks {A} (items : list A) (C : Z) :
  (1 <= C)%Z ->
  exists chunks,
    _chunk_list items C = Ok chunks /\ Forall (fun chunk => chunk <> []) chunks.
Proof.
  intros HC.
  set (c := Z.to_nat C).
  assert (Hc : 0 < c) by (unfold c; lia).
  replace C with (Z.of_nat c) by (unfold c; lia).
  exists (chunks_upto items c (ceil_div (length items) c)).
  split; [now apply _chunk_list_pos|].
  unfold chunks_upto. apply Forall_map, Forall_forall. intros k Hk.
  apply elem_of_seq in Hk.
  pose proof (chunk_start_in_range items c k Hc ltac:(lia)) as Hlt.
  intros E. apply (f_equal (@length A)) in E.
  rewrite length_chunk in E. simpl in E. lia.
Qed.

(** ** The stages of the pipeline *)

Section StageFacts.
Context {W : Type} (env : Env W) (self : PlanetDownloader).
Implicit Types (s : state W).

Lemma _load_aoi_emitted geometry_info s :
  Forall (fun ev => is_read_file ev = true)
         (emitted (_load_aoi env geometry_info s)).
Proof.
  destruct geometry_info; simpl; try constructor.
  apply bind_emitted; [now apply call_emitted|]. intros gdf.
  apply bind_emitted; [constructor|]. intros union.
  apply bind_emitted; constructor.
Qed.

Lemma search_emitted geometry_info start_date end_date item_type cloud_cover s :
  Forall (fun ev => is_search_event ev = true)
         (emitted (search env geometry_info start_date end_date
                          item_type cloud_cover s)).
Proof.
  unfold search.
  apply bind_emitted.
  { eapply Forall_impl; [apply _load_aoi_emitted|].
    intros ev. now destruct ev. }
  intros aoi.
  apply bind_emitted; [constructor|]. intros d1.
  apply bind_emitted; [constructor|]. intros d2.
  destruct (pl_data_search _ _ _ _ _ _) as [[r h] w]. simpl.
  now repeat constructor.
Qed.

Lemma search_event_kinds ev :
  is_search_event ev = true ->
  is_to_file ev = false /\ is_order_event ev = false.
Proof. destruct ev; simpl; intros; try discriminate; auto. Qed.

End StageFacts.

(** C3: when the catalog search returns no record, [download] raises
    [SystemExit] with a message, which ends the process with a status
    other than 0; the run stops where the search left it, so nothing is
    written and no order is created, waited for or downloaded. *)
Theorem download_empty_result_exits {W} (env : Env W) (self : PlanetDownloader)
    geometry_info start_date end_date item_types bundles cloud_cover
    threads overwrite progress_bar (s s1 : state W) es1 :
  search env geometry_info start_date end_date item_types cloud_cover s
  = Run (Ok []) s1 es1 ->
  let r := download env self geometry_info start_date end_date item_types
                    bundles cloud_cover threads overwrite progress_bar s in
  outcome r
  = Raise (SystemExit (ExitStr "No images found. Make filters more flexible."))
  /\ exit_status (outcome r) <> 0%Z
  /\ exit_message (outcome r)
     = Some "No images found. Make filters more flexible."
  /\ final r = s1
  /\ emitted r = es1
  /\ Forall (fun ev => is_to_file ev = false /\ is_order_event ev = false)
            (emitted r).
Proof.
  intros Hsearch r.
  assert (Hr : r = Run (Raise (SystemExit
                  (ExitStr "No images found. Make filters more flexible.")))
                 s1 es1).
  { unfold r, download.
    rewrite (bind_ok _ _ _ []) by now rewrite Hsearch.
    rewrite Hsearch. simpl. now rewrite app_nil_r. }
  rewrite Hr. simpl. repeat split; try easy.
  pose proof (search_emitted env geometry_info start_date end_date
                item_types cloud_cover s) as Hev.
  rewrite Hsearch in Hev. simpl in Hev.
  eapply Forall_impl; [exact Hev|]. intros ev. apply search_event_kinds.
Qed.

Lemma download_empty_result_exits_witness :
  let r := download (demo_env []) demo_self demo_geometry
                    "2020-01-01" "2020-02-01" ["PSScene"] ["analytic_udm2"]
                    (VFloat (2 # 10)) 4 false true demo_state in
  outcome r
  = Raise (SystemExit (ExitStr "No images found. Make filters more flexible."))
  /\ exit_status (outcome r) <> 0%Z
  /\ exit_message (outcome r)
     = Some "No images found. Make filters more flexible."
  /\ final r = demo_state
  /\ emitted r
     = [EvSearch ["PSScene"] demo_geometry
          (search_filter_of (VForeign "2020-01-01") (VForeign "2020-02-01")
                            (VFloat (2 # 10)))]
  /\ Forall (fun ev => is_to_file ev = false /\ is_order_event ev = false)
            (emitted r).
Proof.
  apply (download_empty_result_exits (demo_env []) demo_self).
  reflexivity.
Defined.

(** C7: once the dates are parsed, the filter [search] hands to the
    catalog is the conjunction of the permission filter, the date range on
    [acquired] from the start date to the end date, both included, and the
    range [cloud_cover] at most the threshold; it is the only search the
    call issues. *)
Theorem search_filter_composition {W} (env : Env W)
    geometry_info start_date end_date item_type cloud_cover
    (s s0 : state W) aoi es0 d1 d2 :
  _load_aoi env geometry_info s = Run (Ok aoi) s0 es0 ->
  datetime_strptime env start_date "%Y-%m-%d" = Ok d1 ->
  datetime_strptime env end_date "%Y-%m-%d" = Ok d2 ->
  let sfilter :=
    data_filter.and_filter
      [ data_filter.permission_filter;
        data_filter.date_range_filter
          "acquired"
          {| data_filter.gt := None; data_filter.lt := None;
             data_filter.gte := Some d1; data_filter.lte := Some d2 |};
        data_filter.range_filter
          "cloud_cover"
          {| data_filter.gt := None; data_filter.lt := None;
             data_filter.gte := None;
             data_filter.lte := Some cloud_cover |} ] in
  emitted (search env geometry_info start_date end_date item_type cloud_cover s)
  = es0 ++ [EvSearch item_type aoi sfilter]
  /\ forall its g f,
       In (EvSearch its g f)
          (emitted (search env geometry_info start_date end_date
                           item_type cloud_cover s)) ->
       f = sfilter.
Proof.
  intros Haoi Hd1 Hd2 sfilter.
  assert (E : emitted (search env geometry_info start_date end_date
                              item_type cloud_cover s)
              = es0 ++ [EvSearch item_type aoi sfilter]).
  { unfold search.
    rewrite (bind_ok _ _ _ aoi) by now rewrite Haoi.
    rewrite Haoi. simpl.
    unfold bind, lift. simpl. rewrite Hd1. simpl. rewrite Hd2. simpl.
    destruct (pl_data_search _ _ _ _ _ _) as [[r h] w]. reflexivity. }
  split; [exact E|].
  intros its g f Hin. rewrite E in Hin. apply in_app_or in Hin as [Hin|Hin].
  - pose proof (_load_aoi_emitted env geometry_info s) as Hev.
    rewrite Haoi in Hev. simpl in Hev.
    rewrite List.Forall_forall in Hev. apply Hev in Hin. discriminate.
  - destruct Hin as [Hin|[]]. now injection Hin as _ _ <-.
Qed.

Lemma search_filter_composition_witness :
  emitted (search (demo_env demo_items) demo_geometry "2020-01-01" "2020-02-01"
                  ["PSScene"] (VFloat (2 # 10)) demo_state)
  = [] ++ [EvSearch ["PSScene"] demo_geometry
             (search_filter_of (VForeign "2020-01-01") (VForeign "2020-02-01")
                               (VFloat (2 # 10)))]
  /\ forall its g f,
       In (EvSearch its g f)
          (emitted (search (demo_env demo_items) demo_geometry
                           "2020-01-01" "2020-02-01"
                           ["PSScene"] (VFloat (2 # 10)) demo_state)) ->
       f = search_filter_of (VForeign "2020-01-01") (VForeign "2020-02-01")
                            (VFloat (2 # 10)).
Proof.
  apply (search_filter_composition
           (demo_env demo_items) demo_geometry "2020-01-01" "2020-02-01"
           ["PSScene"] (VFloat (2 # 10)) demo_state demo_state demo_geometry []
           (VForeign "2020-01-01") (VForeign "2020-02-01"));
    reflexivity.
Defined.

(** C8: an area of interest that is not a path string comes back from
    [_load_aoi] as it went in, with the store untouched and no file read;
    resolving the result again gives the same run. *)
Theorem load_aoi_geometry_identity {W} (env : Env W) geometry_info (s : state W) :
  is_str geometry_info = false ->
  _load_aoi env geometry_info s = Run (Ok geometry_info) s []
  /\ (do aoi <~ _load_aoi env geometry_info ;; _load_aoi env aoi) s
     = _load_aoi env geometry_info s.
Proof.
  intros Hstr.
  assert (E : _load_aoi env geometry_info s = Run (Ok geometry_info) s [])
    by (destruct geometry_info; try discriminate; reflexivity).
  split; [exact E|].
  rewrite (bind_ok _ _ _ geometry_info) by now rewrite E.
  rewrite E. simpl. rewrite E. reflexivity.
Qed.

Lemma load_aoi_geometry_identity_witness :
  _load_aoi (demo_env demo_items) demo_geometry demo_state
  = Run (Ok demo_geometry) demo_state []
  /\ (do aoi <~ _load_aoi (demo_env demo_items) demo_geometry ;;
      _load_aoi (demo_env demo_items) aoi) demo_state
     = _load_aoi (demo_env demo_items) demo_geometry demo_state.
Proof.
  apply (load_aoi_geometry_identity (demo_env demo_items) demo_geometry demo_state).
  reflexivity.
Defined.

(** C9: [download] does not look at [threads]: two calls that differ in
    nothing else are the same run, with the same result, the same final
    state and the same search, write, order, wait and download calls. *)
Theorem download_ignores_threads {W} (env : Env W) (self : PlanetDownloader)
    geometry_info start_date end_date item_types bundles cloud_cover
    (threads1 threads2 : Z) overwrite progress_bar (s : state W) :
  download env self geometry_info start_date end_date item_types bundles
           cloud_cover threads1 overwrite progress_bar s
  = download env self geometry_info start_date end_date item_types bundles
             cloud_cover threads2 overwrite progress_bar s.
Proof. reflexivity. Qed.

(** With a geospatial layer that takes an empty table, the call on an
    empty list returns, and its one call to the outside writes a frame of
    zero records to the dated file of the download directory. *)
Lemma write_metadata_empty_accepted {W} (env : Env W) (self : PlanetDownloader)
    driver (s : state W) :
  let frame := mkGeoDataFrame [] "geometry" "EPSG:4326" in
  gpd_GeoDataFrame_init env [] "geometry" "EPSG:4326" = Ok tt ->
  (forall w path, fst (gdf_to_file env w frame path driver) = Ok tt) ->
  let r := _write_metadata env self [] driver s in
  let stamp := fst (datetime_now_strftime env (world s) "%Y%m%d_%H%M%S") in
  let ext := if String.eqb driver "GeoJSON" then "geojson" else "gpkg" in
  outcome r = Ok tt
  /\ emitted r
     = [EvToFile frame
                 (os_path_join (download_dir self)
                               ("metadata-" +:+ stamp +:+ "." +:+ ext))
                 driver]
  /\ length (gdf_records frame) = 0
  /\ heap (final r) = heap s.
Proof.
  intros frame Hinit Hfile r stamp ext.
  unfold r, stamp, ext, _write_metadata, bind, now_strftime, lift, call.
  simpl.
  destruct (datetime_now_strftime env (world s) "%Y%m%d_%H%M%S") as [t w].
  simpl. rewrite Hinit. simpl. fold frame.
  match goal with |- context [gdf_to_file env ?w ?f ?p ?d] =>
    pose proof (Hfile w p) as Hw; destruct (gdf_to_file env w f p d) as [o w']
  end.
  simpl in *. subst o. auto.
Qed.

Lemma write_metadata_empty_accepted_demo :
  let r := _write_metadata (demo_env []) demo_self [] "GeoJSON" demo_state in
  outcome r = Ok tt
  /\ emitted r
     = [EvToFile (mkGeoDataFrame [] "geometry" "EPSG:4326")
                 "./planet_downloads/metadata-20200101_000000.geojson"
                 "GeoJSON"]
  /\ length (gdf_records (mkGeoDataFrame [] "geometry" "EPSG:4326")) = 0
  /\ heap (final r) = heap demo_state.
Proof.
  apply (write_metadata_empty_accepted
           (demo_env []) demo_self "GeoJSON" demo_state);
    reflexivity.
Defined.

(** ** Order placement *)

Lemma combine_app {A B} (l1 l2 : list A) (k1 k2 : list B) :
  length l1 = length k1 ->
  combine (l1 ++ l2) (k1 ++ k2) = combine l1 k1 ++ combine l2 k2.
Proof.
  revert k1. induction l1 as [|a l1 IH]; intros [|b k1]; simpl; try easy.
  intros [= E]. f_equal. now apply IH.
Qed.

Lemma length_planned_orders chunks item_types bundles :
  length (planned_orders chunks item_types bundles)
  = length chunks * length item_types * length bundles.
Proof.
  unfold planned_orders.
  rewrite (flat_map_constant_length (c := length item_types * length bundles)).
  - lia.
  - intros chunk _.
    rewrite (flat_map_constant_length (c := length bundles)); [lia|].
    intros item_type _. apply length_map.
Qed.

Section OrderFacts.
Context {W : Type} (env : Env W) (self : PlanetDownloader).
Context (overwrite progress_bar : bool).
Implicit Types (s : state W).

Lemma order_step_places chunk item_type bundle :
  places (download_dir self) overwrite progress_bar
         [order_of chunk item_type bundle]
         (order_step env self overwrite progress_bar chunk item_type bundle).
Proof.
  intros s Hok. unfold order_step in *.
  apply bind_inv in Hok as Hinv. destruct Hinv as (order_id & Hcreate & Hrest).
  exists [order_id]. split; [reflexivity|].
  rewrite (bind_ok _ _ _ order_id) by exact Hcreate. simpl.
  apply bind_inv in Hrest as Hinv. destruct Hinv as ([] & Hwait & Hdl).
  rewrite (bind_ok _ _ _ tt) by exact Hwait. simpl.
  rewrite !call_run. simpl.
  unfold _create_order in *.
  apply bind_inv in Hcreate as Hinv. destruct Hinv as ([] & Hval & _).
  rewrite (bind_ok _ _ _ tt) by exact Hval. simpl.
  rewrite call_run. reflexivity.
Qed.

Lemma for_each_places {A} (reqs : A -> list order_request.Request)
      (body : A -> M W unit) xs :
  (forall x, places (download_dir self) overwrite progress_bar
                    (reqs x) (body x)) ->
  places (download_dir self) overwrite progress_bar
         (flat_map reqs xs) (for_each xs body).
Proof.
  intros Hbody. induction xs as [|x xs IH]; intros s Hok; simpl in *.
  - exists []. auto.
  - apply bind_inv in Hok as Hinv. destruct Hinv as ([] & Hx & Hxs).
    rewrite (bind_ok _ _ _ tt) by exact Hx. simpl.
    destruct (Hbody x s Hx) as (ids1 & Hlen1 & ->).
    destruct (IH _ Hxs) as (ids2 & Hlen2 & ->).
    exists (ids1 ++ ids2). split.
    + rewrite !length_app. lia.
    + rewrite combine_app by lia. now rewrite flat_map_app.
Qed.

Lemma order_loops_place chunks item_types bundles :
  places (download_dir self) overwrite progress_bar
         (planned_orders chunks item_types bundles)
         (for_each chunks (fun chunk =>
            for_each item_types (fun item_type =>
              for_each bundles (fun bundle =>
                order_step env self overwrite progress_bar
                           chunk item_type bundle)))).
Proof.
  unfold planned_orders.
  apply for_each_places. intros chunk.
  apply for_each_places. intros item_type.
  replace (map (fun bundle => order_of chunk item_type bundle) bundles)
    with (flat_map (fun bundle => [order_of chunk item_type bundle]) bundles).
  - apply for_each_places. intros bundle. apply order_step_places.
  - induction bundles; simpl; congruence.
Qed.

Lemma count_create_order_events reqs order_ids :
  length order_ids = length reqs ->
  count_events is_create_order (flat_map (order_events (download_dir self) overwrite progress_bar)
               (combine reqs order_ids))
  = length reqs.
Proof.
  unfold count_events.
  revert order_ids. induction reqs as [|r reqs IH]; intros [|o os]; simpl; try easy.
  intros [= E]. f_equal. now apply IH.
Qed.

Lemma order_step_emitted chunk item_type bundle s :
  Forall (fun ev => is_order_event ev = true)
         (emitted (order_step env self overwrite progress_bar
                              chunk item_type bundle s)).
Proof.
  unfold order_step, _create_order.
  apply bind_emitted.
  { apply bind_emitted; [constructor|]. intros _. now apply call_emitted. }
  intros order_id. apply bind_emitted; [now apply call_emitted|].
  intros _. now apply call_emitted.
Qed.

(** Any order the innermost step submits is for the chunk it was given. *)
Lemma order_step_requests chunk item_type bundle s :
  Forall (fun ev => forall req, ev = EvCreateOrder req ->
                    req = order_of chunk item_type bundle)
         (emitted (order_step env self overwrite progress_bar
                              chunk item_type bundle s)).
Proof.
  unfold order_step, _create_order.
  apply bind_emitted.
  { apply bind_emitted; [constructor|]. intros _.
    apply call_emitted. now intros req [= <-]. }
  intros order_id. apply bind_emitted; [now apply call_emitted|].
  intros _. now apply call_emitted.
Qed.

End OrderFacts.

(** ** The metadata persister reaches the outside once *)

Section PersisterFacts.
Context {W : Type} (env : Env W) (self : PlanetDownloader).
Implicit Types (s : state W).

Lemma bind_silent {A B} (m : M W A) (f : A -> M W B) s :
  emitted (m s) = [] ->
  (forall a, emitted (f a (final (m s))) = []) ->
  emitted (bind m f s) = [].
Proof.
  intros Hm Hf. unfold bind. destruct (outcome (m s)); simpl; [|exact Hm].
  now rewrite Hm, Hf.
Qed.

Lemma metadata_record_silent item s :
  emitted (metadata_record env item s) = [].
Proof.
  unfold metadata_record.
  apply bind_silent; [apply dict_get_or_new_emitted|]. intros props.
  apply bind_silent; [apply dict_get_pure|]. intros id.
  apply bind_silent; [apply setitem_emitted|]. intros _.
  apply bind_silent; [apply dict_get_pure|]. intros g.
  apply bind_silent; [reflexivity|]. intros geom.
  apply bind_silent; [apply dict_entries_pure|]. reflexivity.
Qed.

Lemma metadata_records_silent metadata records s :
  emitted (metadata_records env metadata records s) = [].
Proof.
  revert records s. induction metadata as [|item rest IH]; intros records s.
  - reflexivity.
  - simpl. apply bind_silent; [apply metadata_record_silent|].
    intros record. apply IH.
Qed.

Lemma metadata_records_length metadata records s rows :
  outcome (metadata_records env metadata records s) = Ok rows ->
  length rows = length records + length metadata.
Proof.
  revert records s. induction metadata as [|item rest IH]; intros records s.
  - simpl. intros [= <-]. lia.
  - simpl. intros H. apply bind_inv in H as (record & _ & H).
    apply IH in H. rewrite length_app in H. simpl in *. lia.
Qed.

Lemma now_strftime_silent fmt s : emitted (now_strftime env fmt s) = [].
Proof.
  unfold now_strftime. now destruct (datetime_now_strftime env (world s) fmt).
Qed.

Lemma now_strftime_ok fmt s :
  exists stamp, outcome (now_strftime env fmt s) = Ok stamp.
Proof.
  unfold now_strftime. destruct (datetime_now_strftime env (world s) fmt) as [t w].
  now exists t.
Qed.

Lemma _write_metadata_emitted metadata driver s :
  Forall (fun ev => is_to_file ev = true)
         (emitted (_write_metadata env self metadata driver s)).
Proof.
  unfold _write_metadata.
  apply bind_emitted; [rewrite now_strftime_silent; constructor|]. intros stamp.
  apply bind_emitted; [rewrite metadata_records_silent; constructor|]. intros rows.
  apply bind_emitted; [constructor|]. intros _.
  now apply call_emitted.
Qed.

(** A call that returns wrote one frame, with a row for each record. *)
Lemma _write_metadata_ok metadata driver s :
  outcome (_write_metadata env self metadata driver s) = Ok tt ->
  exists rows path,
    emitted (_write_metadata env self metadata driver s)
    = [EvToFile (mkGeoDataFrame rows "geometry" "EPSG:4326") path driver]
    /\ length rows = length metadata.
Proof.
  unfold _write_metadata. intros H.
  apply bind_inv in H as Hinv. destruct Hinv as (stamp & Hstamp & H1).
  rewrite (bind_ok _ _ _ stamp) by exact Hstamp. simpl.
  rewrite now_strftime_silent. simpl.
  apply bind_inv in H1 as Hinv. destruct Hinv as (rows & Hrows & H2).
  rewrite (bind_ok _ _ _ rows) by exact Hrows. simpl.
  rewrite metadata_records_silent. simpl.
  apply bind_inv in H2 as Hinv. destruct Hinv as ([] & Hinit & H3).
  rewrite (bind_ok _ _ _ tt) by exact Hinit. simpl.
  rewrite call_run. simpl.
  eexists rows, _. split; [reflexivity|].
  apply metadata_records_length in Hrows. simpl in Hrows. lia.
Qed.

End PersisterFacts.

(** ** The persister and the records it is given *)

Section StoreFacts.
Context {W : Type} (env : Env W) (self : PlanetDownloader).
Implicit Types (s : state W) (h : gmap loc (gmap string value)).

Lemma persister_inv_start h0 records : persister_inv h0 records h0.
Proof.
  split.
  - intros l kv Hl. exists kv. auto.
  - intros l kv' Hnone Hsome. congruence.
Qed.

(** Writing ["id"] into the property mapping of a record. *)
Lemma persister_inv_write h0 records h li di lp dp v :
  persister_inv h0 records h ->
  In (VDict li) records ->
  h !! li = Some di ->
  di !! "properties" = Some (VDict lp) ->
  h !! lp = Some dp ->
  persister_inv h0 records (<[lp := <["id" := v]> dp]> h).
Proof.
  intros [I1 I2] Hin Hli Hprops Hlp. split.
  - intros l kv Hl. destruct (I1 l kv Hl) as (kv1 & Hl1 & Hagree & Hsame).
    destruct (decide (l = lp)) as [->|Hne].
    + rewrite lookup_insert_eq. eexists. split; [reflexivity|]. split.
      * intros key Hkey. rewrite lookup_insert_ne by congruence.
        rewrite Hlp in Hl1. injection Hl1 as <-. now apply Hagree.
      * intros Hnot. exfalso. apply Hnot.
        destruct (h0 !! li) as [di0|] eqn:Hli0.
        -- exists li, di0. repeat split; auto.
           destruct (I1 li di0 Hli0) as (di' & Hli' & Hagree' & _).
           rewrite Hli in Hli'. injection Hli' as <-.
           rewrite <- Hagree' by discriminate. exact Hprops.
        -- rewrite (I2 li di Hli0 Hli) in Hprops. discriminate.
    + rewrite lookup_insert_ne by congruence. eauto.
  - intros l kv' Hnone Hsome.
    destruct (decide (l = lp)) as [->|Hne].
    + rewrite lookup_insert_eq in Hsome. injection Hsome as <-.
      rewrite lookup_insert_ne by discriminate. eapply I2; eauto.
    + rewrite lookup_insert_ne in Hsome by congruence. eapply I2; eauto.
Qed.

(** A new dictionary, with no ["properties"] entry. *)
Lemma persister_inv_new h0 records h l' kv' :
  persister_inv h0 records h ->
  h !! l' = None ->
  kv' !! "properties" = None ->
  persister_inv h0 records (<[l' := kv']> h).
Proof.
  intros [I1 I2] Hfresh Hkv. split.
  - intros l kv Hl. destruct (I1 l kv Hl) as (kv1 & Hl1 & Hagree & Hsame).
    exists kv1. rewrite lookup_insert_ne by congruence. auto.
  - intros l kv'' Hnone Hsome.
    destruct (decide (l = l')) as [->|Hne].
    + rewrite lookup_insert_eq in Hsome. now injection Hsome as <-.
    + rewrite lookup_insert_ne in Hsome by congruence. eapply I2; eauto.
Qed.

Lemma fresh_loc_unused h : h !! fresh (dom h) = None.
Proof. apply not_elem_of_dom, is_fresh. Qed.

(** A property of the state where a run stops. *)
Lemma bind_final {A B} (Q : state W -> Prop) (m : M W A) (f : A -> M W B) s :
  (forall e, outcome (m s) = Raise e -> Q (final (m s))) ->
  (forall a, outcome (m s) = Ok a -> Q (final (f a (final (m s))))) ->
  Q (final (bind m f s)).
Proof.
  intros Hr Hk. unfold bind.
  destruct (outcome (m s)) as [a|e] eqn:E; simpl; eauto.
Qed.

Lemma dict_get_or_new_final d key s v :
  outcome (dict_get_or_new d key s) = Ok v ->
  (exists li di,
      d = VDict li /\ heap s !! li = Some di /\ di !! key = Some v
      /\ final (dict_get_or_new d key s) = s)
  \/ (exists li di,
        d = VDict li /\ heap s !! li = Some di /\ di !! key = None
        /\ v = VDict (fresh (dom (heap s)))
        /\ final (dict_get_or_new d key s)
           = mkState (<[fresh (dom (heap s)) := ∅]> (heap s)) (world s)).
Proof.
  unfold dict_get_or_new. destruct d; simpl; try discriminate.
  destruct (heap s !! l) as [di|] eqn:Hl; simpl; try discriminate.
  destruct (di !! key) as [v'|] eqn:Hk; simpl; intros [= <-].
  - left. now exists l, di.
  - right. now exists l, di.
Qed.

Lemma dict_get_or_new_raise d key s e :
  outcome (dict_get_or_new d key s) = Raise e ->
  final (dict_get_or_new d key s) = s.
Proof.
  unfold dict_get_or_new. destruct d; simpl; auto.
  destruct (heap s !! l) as [di|]; simpl; auto.
  destruct (di !! key); simpl; auto; discriminate.
Qed.

Lemma setitem_final d key v s :
  final (setitem d key v s) = s
  \/ exists l kv,
       d = VDict l /\ heap s !! l = Some kv
       /\ final (setitem d key v s)
          = mkState (<[l := <[key := v]> kv]> (heap s)) (world s).
Proof.
  unfold setitem. destruct d; simpl; auto.
  destruct (heap s !! l) as [kv|] eqn:Hl; simpl; auto.
  right. now exists l, kv.
Qed.

(** After the write of ["id"], a turn of the loop only reads. *)
Lemma metadata_record_tail_final (item props : value) s :
  final ((do g <~ dict_get item "geometry" ;;
          do geom <~ (fun s => lift (shapely_shape env (heap s) g) s) ;;
          do kv <~ dict_entries props ;;
          ret (<["geometry" := geom]> kv)) s) = s.
Proof.
  apply bind_pure; [apply dict_get_pure|]. intros g.
  apply bind_pure; [split; reflexivity|]. intros geom.
  apply bind_pure; [apply dict_entries_pure|]. intros kv.
  split; reflexivity.
Qed.

Lemma metadata_record_inv h0 records item s :
  In item records ->
  persister_inv h0 records (heap s) ->
  persister_inv h0 records (heap (final (metadata_record env item s))).
Proof.
  intros Hin Hinv. unfold metadata_record.
  apply (bind_final (fun s' => persister_inv h0 records (heap s'))).
  { intros e He. now rewrite (dict_get_or_new_raise _ _ _ _ He). }
  intros props Hprops.
  apply dict_get_or_new_final in Hprops
    as [(li & di & -> & Hli & Hkey & ->)
       |(li & di & -> & Hli & Hkey & -> & ->)].
  - (* the record has a property mapping *)
    apply (bind_final (fun s' => persister_inv h0 records (heap s'))).
    { intros e _. now rewrite (proj1 (dict_get_pure _ _ _)). }
    intros id _. rewrite (proj1 (dict_get_pure _ _ _)).
    apply (bind_final (fun s' => persister_inv h0 records (heap s'))).
    + intros e _.
      destruct (setitem_final props "id" id s)
        as [->|(lp & dp & -> & Hlp & ->)]; [exact Hinv|].
      simpl. eapply persister_inv_write; eauto.
    + intros _ _. rewrite metadata_record_tail_final.
      destruct (setitem_final props "id" id s)
        as [->|(lp & dp & -> & Hlp & ->)]; [exact Hinv|].
      simpl. eapply persister_inv_write; eauto.
  - (* it has none: the write goes to a new dictionary *)
    set (l' := fresh (dom (heap s))).
    set (s1 := mkState (<[l' := ∅]> (heap s)) (world s)).
    assert (Hs1 : persister_inv h0 records (heap s1)).
    { simpl. apply persister_inv_new; auto. apply fresh_loc_unused. }
    apply (bind_final (fun s' => persister_inv h0 records (heap s'))).
    { intros e _. now rewrite (proj1 (dict_get_pure _ _ _)). }
    intros id _. rewrite (proj1 (dict_get_pure _ _ _)).
    assert (Hset : persister_inv h0 records
                     (heap (final (setitem (VDict l') "id" id s1)))).
    { destruct (setitem_final (VDict l') "id" id s1)
        as [->|(lp & dp & [= <-] & Hlp & ->)]; [exact Hs1|].
      simpl in *. rewrite lookup_insert_eq in Hlp. injection Hlp as <-.
      rewrite insert_insert_eq.
      apply persister_inv_new; auto. apply fresh_loc_unused. }
    apply (bind_final (fun s' => persister_inv h0 records (heap s'))).
    + intros e _. exact Hset.
    + intros _ _. rewrite metadata_record_tail_final. exact Hset.
Qed.

Lemma metadata_records_inv h0 records rest acc s :
  (forall item, In item rest -> In item records) ->
  persister_inv h0 records (heap s) ->
  persister_inv h0 records
    (heap (final (metadata_records env rest acc s))).
Proof.
  revert acc s. induction rest as [|item rest IH]; intros acc s Hsub Hinv.
  - exact Hinv.
  - simpl.
    apply (bind_final (fun s' => persister_inv h0 records (heap s'))).
    + intros e _. apply metadata_record_inv; auto. apply Hsub. now left.
    + intros record _. apply IH.
      * intros x Hx. apply Hsub. now right.
      * apply metadata_record_inv; auto. apply Hsub. now left.
Qed.

Lemma _write_metadata_inv metadata driver s :
  persister_inv (heap s) metadata
    (heap (final (_write_metadata env self metadata driver s))).
Proof.
  unfold _write_metadata.
  apply (bind_final (fun s' => persister_inv (heap s) metadata (heap s'))).
  { intros e He. destruct (now_strftime_ok env "%Y%m%d_%H%M%S" s) as [t Ht].
    congruence. }
  intros stamp _.
  assert (Hclock : heap (final (now_strftime env "%Y%m%d_%H%M%S" s)) = heap s).
  { unfold now_strftime.
    now destruct (datetime_now_strftime env (world s) "%Y%m%d_%H%M%S"). }
  assert (Hrecs : forall acc,
             persister_inv (heap s) metadata
               (heap (final (metadata_records env metadata acc
                 (final (now_strftime env "%Y%m%d_%H%M%S" s)))))).
  { intros acc. apply metadata_records_inv; [auto|].
    rewrite Hclock. apply persister_inv_start. }
  apply (bind_final (fun s' => persister_inv (heap s) metadata (heap s'))).
  { intros e _. apply Hrecs. }
  intros rows _.
  apply (bind_final (fun s' => persister_inv (heap s) metadata (heap s'))).
  { intros e _. apply Hrecs. }
  intros _ _. rewrite call_run. simpl. apply Hrecs.
Qed.

(** Dictionaries stay, and keep their ["properties"] entry. *)
Lemma has_shape_kept h0 records h item :
  persister_inv h0 records h ->
  has_shape h0 item -> has_shape h item.
Proof.
  intros [I1 _] (li & di & -> & Hli & Hprops).
  destruct (I1 li di Hli) as (di' & Hli' & Hagree & _).
  exists li, di'. split; [reflexivity|]. split; [exact Hli'|].
  rewrite Hagree by discriminate.
  destruct Hprops as [Hnone|(lp & Hp & [dp Hlp])]; [now left|].
  right. exists lp. split; [exact Hp|].
  destruct (I1 lp dp Hlp) as (dp' & Hlp' & _). eauto.
Qed.

Lemma bind_returns {A B} (m : M W A) (f : A -> M W B) s :
  (exists a, outcome (m s) = Ok a) ->
  (forall a, outcome (m s) = Ok a ->
             exists b, outcome (f a (final (m s))) = Ok b) ->
  exists b, outcome (bind m f s) = Ok b.
Proof.
  intros [a Ha] Hk. destruct (Hk a Ha) as [b Hb]. exists b.
  rewrite (bind_ok _ _ _ a) by exact Ha. exact Hb.
Qed.

Lemma dict_get_returns l key s :
  is_Some (heap s !! l) -> exists v, outcome (dict_get (VDict l) key s) = Ok v.
Proof. intros [kv Hl]. unfold dict_get. rewrite Hl. simpl. eauto. Qed.

Lemma dict_entries_returns l s :
  is_Some (heap s !! l) -> exists kv, outcome (dict_entries (VDict l) s) = Ok kv.
Proof. intros [kv Hl]. unfold dict_entries. rewrite Hl. simpl. eauto. Qed.

(** What is left of a turn once ["id"] is written returns, when the
    record and its property mapping are in the store. *)
Lemma metadata_record_tail_returns li lp s :
  (forall h g, exists geom, shapely_shape env h g = Ok geom) ->
  is_Some (heap s !! li) -> is_Some (heap s !! lp) ->
  exists record,
    outcome ((do g <~ dict_get (VDict li) "geometry" ;;
              do geom <~ (fun s => lift (shapely_shape env (heap s) g) s) ;;
              do kv <~ dict_entries (VDict lp) ;;
              ret (<["geometry" := geom]> kv)) s) = Ok record.
Proof.
  intros Hshape Hli Hlp.
  apply bind_returns; [now apply dict_get_returns|]. intros g _.
  rewrite (proj1 (dict_get_pure _ _ _)).
  apply bind_returns; [apply Hshape|]. intros geom _. cbn [lift final].
  apply bind_returns; [now apply dict_entries_returns|]. intros kv _.
  cbn [ret outcome]. eauto.
Qed.

Lemma metadata_record_returns item s :
  (forall h g, exists geom, shapely_shape env h g = Ok geom) ->
  has_shape (heap s) item ->
  exists record, outcome (metadata_record env item s) = Ok record.
Proof.
  intros Hshape (li & di & -> & Hli & Hprops). unfold metadata_record.
  destruct Hprops as [Hnone|(lp & Hp & [dp Hlp])].
  - (* no property mapping: a new dictionary takes the write *)
    set (l' := fresh (dom (heap s))).
    set (s1 := mkState (<[l' := ∅]> (heap s)) (world s)).
    assert (Hnew : dict_get_or_new (VDict li) "properties" s
                   = Run (Ok (VDict l')) s1 []).
    { unfold dict_get_or_new. now rewrite Hli, Hnone. }
    assert (Hne : l' <> li).
    { intros E. pose proof (fresh_loc_unused (heap s)) as Hf.
      fold l' in Hf. rewrite E in Hf. congruence. }
    rewrite (bind_ok _ _ _ (VDict l')) by now rewrite Hnew.
    rewrite Hnew. cbn [outcome final].
    apply bind_returns.
    { apply dict_get_returns. simpl. rewrite lookup_insert_ne by exact Hne. eauto. }
    intros id _. rewrite (proj1 (dict_get_pure _ _ _)).
    set (s2 := mkState (<[l' := <["id" := id]> ∅]> (heap s1)) (world s1)).
    assert (Hset : setitem (VDict l') "id" id s1 = Run (Ok tt) s2 []).
    { unfold setitem. simpl. now rewrite lookup_insert_eq. }
    rewrite (bind_ok _ _ _ tt) by now rewrite Hset.
    rewrite Hset. cbn [outcome final].
    apply metadata_record_tail_returns; [exact Hshape| |].
    + simpl. rewrite !lookup_insert_ne by exact Hne. eauto.
    + simpl. rewrite lookup_insert_eq. eauto.
  - (* the write goes to the record's own property mapping *)
    assert (Hget : dict_get_or_new (VDict li) "properties" s
                   = Run (Ok (VDict lp)) s []).
    { unfold dict_get_or_new. now rewrite Hli, Hp. }
    rewrite (bind_ok _ _ _ (VDict lp)) by now rewrite Hget.
    rewrite Hget. cbn [outcome final].
    apply bind_returns; [apply dict_get_returns; eauto|].
    intros id _. rewrite (proj1 (dict_get_pure _ _ _)).
    set (s2 := mkState (<[lp := <["id" := id]> dp]> (heap s)) (world s)).
    assert (Hset : setitem (VDict lp) "id" id s = Run (Ok tt) s2 []).
    { unfold setitem. now rewrite Hlp. }
    rewrite (bind_ok _ _ _ tt) by now rewrite Hset.
    rewrite Hset. cbn [outcome final].
    apply metadata_record_tail_returns; [exact Hshape| |].
    + simpl. apply lookup_insert_is_Some'. eauto.
    + simpl. rewrite lookup_insert_eq. eauto.
Qed.

Lemma metadata_records_returns rest acc s :
  (forall h g, exists geom, shapely_shape env h g = Ok geom) ->
  Forall (has_shape (heap s)) rest ->
  exists rows, outcome (metadata_records env rest acc s) = Ok rows.
Proof.
  intros Hshape. revert acc s.
  induction rest as [|item rest IH]; intros acc s Hall; simpl.
  - eauto.
  - apply Forall_cons in Hall as [Hitem Hrest].
    apply bind_returns; [now apply metadata_record_returns|].
    intros record _. apply IH.
    eapply Forall_impl; [exact Hrest|]. intros x.
    apply (has_shape_kept (heap s) (item :: rest)).
    apply metadata_record_inv; [now left | apply persister_inv_start].
Qed.

(** With a geospatial layer that does not fail, the persister returns on
    records of the expected shape. *)
Lemma record_shaped_has_shape h item :
  record_shaped h item = true -> has_shape h item.
Proof.
  unfold record_shaped. destruct item; try discriminate.
  destruct (h !! l) as [di|] eqn:Hl; [|discriminate].
  destruct (di !! "properties") as [p|] eqn:Hp.
  - destruct p; try discriminate.
    destruct (h !! l0) as [dp|] eqn:Hlp; [|discriminate].
    intros _. exists l, di. repeat split; auto. right. exists l0. eauto.
  - intros _. exists l, di. auto.
Qed.

Lemma _write_metadata_returns metadata driver s :
  geo_layer_reliable env ->
  forallb (record_shaped (heap s)) metadata = true ->
  outcome (_write_metadata env self metadata driver s) = Ok tt.
Proof.
  intros (Hshape & Hinit & Hfile) Hall.
  assert (Hall' : Forall (has_shape (heap s)) metadata).
  { apply List.Forall_forall. intros x Hx.
    apply record_shaped_has_shape.
    rewrite forallb_forall in Hall. now apply Hall. }
  clear Hall. rename Hall' into Hall.
  enough (exists u, outcome (_write_metadata env self metadata driver s) = Ok u)
    as [[] H] by exact H.
  unfold _write_metadata.
  apply bind_returns; [apply now_strftime_ok|]. intros stamp _.
  assert (Hclock : heap (final (now_strftime env "%Y%m%d_%H%M%S" s)) = heap s).
  { unfold now_strftime.
    now destruct (datetime_now_strftime env (world s) "%Y%m%d_%H%M%S"). }
  apply bind_returns.
  { apply metadata_records_returns; [exact Hshape|]. now rewrite Hclock. }
  intros rows _.
  apply bind_returns; [exists tt; apply Hinit|]. intros _ _.
  exists tt. rewrite call_run. apply Hfile.
Qed.

Lemma forallb_well_formed h items :
  forallb (record_well_formed h) items = true ->
  forallb (record_shaped h) items = true
  /\ forallb (record_has_id h) items = true.
Proof.
  induction items as [|item items IH]; simpl; [auto|].
  unfold record_well_formed at 1. intros H.
  apply andb_prop in H as [H Hrest]. apply andb_prop in H as [-> ->].
  destruct (IH Hrest) as [-> ->]. auto.
Qed.

(** The identifiers of well-formed records can be read. *)
Lemma item_ids_returns items s :
  forallb (record_has_id (heap s)) items = true ->
  exists item_ids,
    outcome (comprehension (fun i => getitem i "id") items s) = Ok item_ids.
Proof.
  induction items as [|item items IH]; intros Hall; simpl; [eauto|].
  simpl in Hall. apply andb_prop in Hall as [Hid Hrest].
  apply bind_returns.
  { unfold record_has_id in Hid. unfold getitem.
    destruct item; try discriminate.
    destruct (heap s !! l) as [di|]; [|discriminate].
    destruct (di !! "id") as [id|]; [|discriminate]. simpl. eauto. }
  intros y _. rewrite (proj1 (getitem_pure _ _ _)).
  apply bind_returns; [now apply IH|].
  intros ys _. cbn [ret outcome]. eauto.
Qed.

End StoreFacts.

(** The persister run on the two demo records. *)
Lemma write_metadata_mutates_record :
  let r := _write_metadata (demo_env demo_items) demo_self demo_items
                           "GeoJSON" demo_state in
  outcome r = Ok tt
  /\ properties_of (heap demo_state) (VDict 1%positive)
     = Some {[ "cloud_cover" := VFloat (1 # 10) ]}
  /\ properties_of (heap (final r)) (VDict 1%positive)
     = Some (<["id" := VStr "a"]> {[ "cloud_cover" := VFloat (1 # 10) ]})
  /\ ~ records_unchanged (heap demo_state) (heap (final r)) demo_items.
Proof.
  split; [vm_compute; reflexivity|].
  split; [vm_compute; reflexivity|].
  split; [vm_compute; reflexivity|].
  intros H. apply Forall_inv in H as (_ & Hprops & _).
  apply (f_equal (fun o => match o with
                           | Some kv => kv !! "id"
                           | None => None
                           end)) in Hprops.
  vm_compute in Hprops. discriminate.
Qed.

(** C5, as the code has it: [_write_metadata] returns nothing, and what
    it does to the dictionaries it is given is write the entry ["id"] of
    the records' property mappings.  A dictionary of the store is still
    there after the call with every entry other than ["id"] as before,
    and a dictionary that is not the property mapping of one of the
    records has all its entries as before. *)
Theorem write_metadata_changes_only_id {W} (env : Env W)
    (self : PlanetDownloader) metadata driver (s : state W) l kv :
  heap s !! l = Some kv ->
  let r := _write_metadata env self metadata driver s in
  (outcome r = Ok tt \/ exists e, outcome r = Raise e)
  /\ exists kv',
       heap (final r) !! l = Some kv'
       /\ (forall key, key <> "id" -> kv' !! key = kv !! key)
       /\ (~ is_properties_of (heap s) metadata l -> kv' = kv).
Proof.
  intros Hl r. split.
  - destruct (outcome r) as [[]|e]; eauto.
  - destruct (_write_metadata_inv env self metadata driver s) as [I1 _].
    exact (I1 l kv Hl).
Qed.

Lemma write_metadata_changes_only_id_witness :
  let r := _write_metadata (demo_env demo_items) demo_self demo_items
                           "GeoJSON" demo_state in
  (outcome r = Ok tt \/ exists e, outcome r = Raise e)
  /\ exists kv',
       heap (final r) !! 3%positive = Some kv'
       /\ (forall key, key <> "id" ->
           kv' !! key
           = ({[ "cloud_cover" := VFloat (1 # 10) ]} : gmap string value) !! key)
       /\ (~ is_properties_of (heap demo_state) demo_items 3%positive ->
           kv' = {[ "cloud_cover" := VFloat (1 # 10) ]}).
Proof.
  apply (write_metadata_changes_only_id
           (demo_env demo_items) demo_self demo_items "GeoJSON" demo_state
           3%positive {[ "cloud_cover" := VFloat (1 # 10) ]}).
  vm_compute. reflexivity.
Defined.

(** ** The orchestrator *)

Section DownloadFacts.
Context {W : Type} (env : Env W) (self : PlanetDownloader).
Context (geometry_info : value) (start_date end_date : string).
Context (item_types bundles : list string) (cloud_cover : value).
Context (threads : Z) (overwrite progress_bar : bool).
Implicit Types (s : state W).

Lemma lift_chunk_list_ok (item_ids : list value) :
  exists chunks,
    _chunk_list item_ids MAX_ITEMS_PER_ORDER = Ok chunks
    /\ concat chunks = item_ids
    /\ length chunks = ceil_div (length item_ids) 500
    /\ Forall (fun chunk => chunk <> []) chunks.
Proof.
  destruct (chunk_list_partition_aux item_ids MAX_ITEMS_PER_ORDER)
    as (chunks & Hc & Hcat & _ & _ & Hlen); [unfold MAX_ITEMS_PER_ORDER; lia|].
  destruct (chunk_list_nonempty_chunks item_ids MAX_ITEMS_PER_ORDER)
    as (chunks' & Hc' & Hne); [unfold MAX_ITEMS_PER_ORDER; lia|].
  rewrite Hc in Hc'. injection Hc' as <-.
  exists chunks. repeat split; auto.
Qed.

(** Where a run stands once the result is known not to be empty and the
    identifiers and the metadata went through: what remains is the
    order loops, entered where the persister left the state. *)
Lemma download_after_metadata s s1 es1 items item_ids chunks :
  search env geometry_info start_date end_date item_types cloud_cover s = Run (Ok items) s1 es1 ->
  items <> [] ->
  outcome (comprehension (fun i => getitem i "id") items s1) = Ok item_ids ->
  outcome (_write_metadata env self items "GeoJSON" s1) = Ok tt ->
  _chunk_list item_ids MAX_ITEMS_PER_ORDER = Ok chunks ->
  let wm := _write_metadata env self items "GeoJSON" s1 in
  let loops :=
    (for_each chunks (fun chunk =>
       for_each item_types (fun item_type =>
         for_each bundles (fun bundle =>
           order_step env self overwrite progress_bar
                      chunk item_type bundle)))) (final wm) in
  download env self geometry_info start_date end_date item_types
           bundles cloud_cover threads overwrite progress_bar s
  = Run (outcome loops) (final loops) (es1 ++ emitted wm ++ emitted loops).
Proof.
  intros Hsearch Hne Hids Hwm Hchunks wm loops.
  unfold download.
  rewrite (bind_ok _ _ _ items) by now rewrite Hsearch.
  rewrite Hsearch. cbn [outcome final emitted].
  destruct items as [|i rest]; [contradiction|].
  destruct (comprehension_getitem_pure "id" (i :: rest) s1) as [Hf He].
  rewrite (bind_ok _ _ _ item_ids) by exact Hids.
  rewrite Hf, He. cbn [outcome final emitted app].
  rewrite (bind_ok _ _ _ tt) by exact Hwm. cbn [outcome final emitted].
  rewrite (bind_ok _ _ _ chunks) by exact Hchunks.
  reflexivity.
Qed.

(** What a run that returns went through before its order loops. *)
Lemma download_ok_inv s s1 es1 items :
  search env geometry_info start_date end_date item_types cloud_cover s = Run (Ok items) s1 es1 ->
  items <> [] ->
  outcome (download env self geometry_info start_date end_date item_types
           bundles cloud_cover threads overwrite progress_bar s) = Ok tt ->
  exists item_ids chunks,
    outcome (comprehension (fun i => getitem i "id") items s1) = Ok item_ids
    /\ outcome (_write_metadata env self items "GeoJSON" s1) = Ok tt
    /\ _chunk_list item_ids MAX_ITEMS_PER_ORDER = Ok chunks
    /\ outcome
         ((for_each chunks (fun chunk =>
       for_each item_types (fun item_type =>
         for_each bundles (fun bundle =>
           order_step env self overwrite progress_bar
                      chunk item_type bundle))))
            (final (_write_metadata env self items "GeoJSON" s1)))
       = Ok tt.
Proof.
  intros Hsearch Hne Hok. unfold download in Hok.
  apply bind_inv in Hok as (items' & Hs & Hok).
  rewrite Hsearch in Hs, Hok. simpl in Hs, Hok. injection Hs as <-.
  destruct items as [|i rest]; [contradiction|].
  apply bind_inv in Hok as (item_ids & Hids & Hok).
  destruct (comprehension_getitem_pure "id" (i :: rest) s1) as [Hf _].
  rewrite Hf in Hok.
  apply bind_inv in Hok as ([] & Hwm & Hok).
  apply bind_inv in Hok as (chunks & Hchunks & Hok).
  simpl in Hchunks.
  now exists item_ids, chunks.
Qed.

Lemma order_loops_emitted chunks s :
  Forall (fun ev => is_order_event ev = true)
         (emitted ((for_each chunks (fun chunk =>
       for_each item_types (fun item_type =>
         for_each bundles (fun bundle =>
           order_step env self overwrite progress_bar
                      chunk item_type bundle)))) s)).
Proof.
  apply for_each_emitted. intros chunk s1 _.
  apply for_each_emitted. intros item_type s2 _.
  apply for_each_emitted. intros bundle s3 _.
  apply order_step_emitted.
Qed.

Lemma for_each_returns {A} (xs : list A) (body : A -> M W unit) :
  (forall x s, outcome (body x s) = Ok tt) ->
  forall s, outcome (for_each xs body s) = Ok tt.
Proof.
  intros Hbody. induction xs as [|x xs IH]; intros s; simpl; [reflexivity|].
  rewrite (bind_ok _ _ _ tt) by apply Hbody. apply IH.
Qed.

Lemma order_step_returns chunk item_type bundle s :
  order_service_reliable env ->
  outcome (order_step env self overwrite progress_bar
                      chunk item_type bundle s) = Ok tt.
Proof.
  intros (Hval & Hcreate & Hwait & Hdl).
  unfold order_step, _create_order.
  set (req := order_request.build_request _ _ _).
  destruct (Hcreate (world s) req) as [order_id Hid].
  rewrite (bind_ok _ _ _ order_id).
  - cbn [outcome final].
    rewrite (bind_ok _ _ _ tt) by (rewrite call_run; apply Hwait).
    cbn [outcome]. rewrite call_run. apply Hdl.
  - rewrite (bind_ok _ _ _ tt) by apply Hval.
    cbn [outcome lift final]. rewrite call_run. exact Hid.
Qed.

(** With an order service that does not fail, a run that got through the
    identifiers and the metadata returns. *)
Lemma download_returns_after_metadata s s1 es1 items item_ids :
  search env geometry_info start_date end_date item_types cloud_cover s
  = Run (Ok items) s1 es1 ->
  items <> [] ->
  outcome (comprehension (fun i => getitem i "id") items s1) = Ok item_ids ->
  outcome (_write_metadata env self items "GeoJSON" s1) = Ok tt ->
  order_service_reliable env ->
  outcome (download env self geometry_info start_date end_date item_types
                    bundles cloud_cover threads overwrite progress_bar s)
  = Ok tt.
Proof.
  intros Hsearch Hne Hids Hwm Hrel.
  destruct (lift_chunk_list_ok item_ids) as (chunks & Hchunks & _).
  rewrite (download_after_metadata s s1 es1 items item_ids chunks
             Hsearch Hne Hids Hwm Hchunks).
  cbn [outcome].
  apply for_each_returns. intros chunk s2.
  apply for_each_returns. intros item_type s3.
  apply for_each_returns. intros bundle s4.
  now apply order_step_returns.
Qed.

(** With well-formed records and collaborators that do not fail, a run
    over a result that is not empty returns. *)
Lemma download_returns s s1 es1 items :
  search env geometry_info start_date end_date item_types cloud_cover s
  = Run (Ok items) s1 es1 ->
  items <> [] ->
  forallb (record_well_formed (heap s1)) items = true ->
  geo_layer_reliable env ->
  order_service_reliable env ->
  outcome (download env self geometry_info start_date end_date item_types
                    bundles cloud_cover threads overwrite progress_bar s)
  = Ok tt.
Proof.
  intros Hsearch Hne Hwf Hgeo Hord.
  apply forallb_well_formed in Hwf as [Hshaped Hids].
  destruct (item_ids_returns items s1 Hids) as [item_ids Hitem_ids].
  eapply download_returns_after_metadata; eauto.
  now apply _write_metadata_returns.
Qed.

End DownloadFacts.

Lemma count_events_app kind es1 es2 :
  count_events kind (es1 ++ es2) = count_events kind es1 + count_events kind es2.
Proof. unfold count_events. now rewrite List.filter_app, length_app. Qed.

Lemma count_events_none kind es :
  Forall (fun ev => kind ev = false) es -> count_events kind es = 0.
Proof.
  unfold count_events. induction 1 as [|ev es Hev _ IH]; simpl; [reflexivity|].
  now rewrite Hev.
Qed.

Lemma count_events_all kind es :
  Forall (fun ev => kind ev = true) es -> count_events kind es = length es.
Proof.
  unfold count_events. induction 1 as [|ev es Hev _ IH]; simpl; [reflexivity|].
  rewrite Hev. simpl. now f_equal.
Qed.

(** The orders of a run that returns: the search, one write of the
    metadata, then submit, wait and download for each planned order. *)
Lemma download_orders_of_run {W} (env : Env W) (self : PlanetDownloader)
    geometry_info start_date end_date item_types bundles cloud_cover
    threads overwrite progress_bar (s s1 : state W) es1 items :
  search env geometry_info start_date end_date item_types cloud_cover s
  = Run (Ok items) s1 es1 ->
  items <> [] ->
  let r := download env self geometry_info start_date end_date item_types
                    bundles cloud_cover threads overwrite progress_bar s in
  outcome r = Ok tt ->
  exists item_ids chunks order_ids metadata_write,
    outcome (comprehension (fun i => getitem i "id") items s1) = Ok item_ids
    /\ _chunk_list item_ids MAX_ITEMS_PER_ORDER = Ok chunks
    /\ concat chunks = item_ids
    /\ length chunks = ceil_div (length items) 500
    /\ length order_ids = length (planned_orders chunks item_types bundles)
    /\ is_to_file metadata_write = true
    /\ emitted r
       = es1 ++ metadata_write ::
         flat_map (order_events (download_dir self) overwrite progress_bar)
                  (combine (planned_orders chunks item_types bundles) order_ids)
    /\ count_events is_create_order (emitted r)
       = ceil_div (length items) 500 * length item_types * length bundles.
Proof.
  intros Hsearch Hne r Hok.
  destruct (download_ok_inv env self geometry_info start_date end_date
              item_types bundles cloud_cover threads overwrite progress_bar
              s s1 es1 items Hsearch Hne Hok) as (item_ids & chunks & Hids & Hwm & Hchunks & Hloops).
  destruct (lift_chunk_list_ok item_ids) as (chunks' & Hc' & Hcat & Hlen & _).
  rewrite Hchunks in Hc'. injection Hc' as <-.
  rewrite (comprehension_length _ _ _ _ Hids) in Hlen.
  destruct (order_loops_place env self overwrite progress_bar chunks
              item_types bundles _ Hloops) as (order_ids & Hoids & Hev).
  destruct (_write_metadata_ok env self items "GeoJSON" s1 Hwm)
    as (rows & path & Hwmev & _).
  assert (E : emitted r
              = es1 ++ EvToFile (mkGeoDataFrame rows "geometry" "EPSG:4326")
                                path "GeoJSON" ::
                flat_map (order_events (download_dir self) overwrite progress_bar)
                  (combine (planned_orders chunks item_types bundles) order_ids)).
  { unfold r.
    rewrite (download_after_metadata env self geometry_info start_date
               end_date item_types bundles cloud_cover threads overwrite
               progress_bar s s1 es1 items item_ids chunks
               Hsearch Hne Hids Hwm Hchunks).
    cbn [emitted]. now rewrite Hwmev, Hev. }
  exists item_ids, chunks, order_ids,
    (EvToFile (mkGeoDataFrame rows "geometry" "EPSG:4326") path "GeoJSON").
  repeat split; auto.
  rewrite E.
  change (?x :: ?l) with ([x] ++ l).
  rewrite !count_events_app.
  rewrite (count_create_order_events self overwrite progress_bar) by exact Hoids.
  rewrite length_planned_orders, Hlen.
  rewrite (count_events_none is_create_order es1).
  - reflexivity.
  - pose proof (search_emitted env geometry_info start_date end_date
                  item_types cloud_cover s) as Hs.
    rewrite Hsearch in Hs. cbn [emitted] in Hs.
    eapply Forall_impl; [exact Hs|]. intros ev. now destruct ev.
Qed.

(** The metadata of a run: once the identifiers are read and the
    persister returns, one write, and only order calls after it. *)
Lemma download_metadata_of_run {W} (env : Env W) (self : PlanetDownloader)
    geometry_info start_date end_date item_types bundles cloud_cover
    threads overwrite progress_bar (s s1 : state W) es1 items item_ids :
  search env geometry_info start_date end_date item_types cloud_cover s
  = Run (Ok items) s1 es1 ->
  items <> [] ->
  outcome (comprehension (fun i => getitem i "id") items s1) = Ok item_ids ->
  outcome (_write_metadata env self items "GeoJSON" s1) = Ok tt ->
  let r := download env self geometry_info start_date end_date item_types
                    bundles cloud_cover threads overwrite progress_bar s in
  exists rows path orders,
    emitted r
    = es1 ++ EvToFile (mkGeoDataFrame rows "geometry" "EPSG:4326")
                      path "GeoJSON" :: orders
    /\ emitted (_write_metadata env self items "GeoJSON" s1)
       = [EvToFile (mkGeoDataFrame rows "geometry" "EPSG:4326") path "GeoJSON"]
    /\ length rows = length items
    /\ Forall (fun ev => is_to_file ev = false /\ is_order_event ev = false) es1
    /\ Forall (fun ev => is_order_event ev = true) orders
    /\ count_events is_to_file (emitted r) = 1.
Proof.
  intros Hsearch Hne Hids Hwm r.
  destruct (lift_chunk_list_ok item_ids) as (chunks & Hchunks & _).
  destruct (_write_metadata_ok env self items "GeoJSON" s1 Hwm)
    as (rows & path & Hwmev & Hrows).
  pose proof (order_loops_emitted env self item_types bundles overwrite
                progress_bar chunks
                (final (_write_metadata env self items "GeoJSON" s1))) as Hord.
  assert (Hes1 : Forall (fun ev => is_to_file ev = false
                                   /\ is_order_event ev = false) es1).
  { pose proof (search_emitted env geometry_info start_date end_date
                  item_types cloud_cover s) as Hs.
    rewrite Hsearch in Hs. cbn [emitted] in Hs.
    eapply Forall_impl; [exact Hs|]. intros ev. apply search_event_kinds. }
  eexists rows, path, _. split.
  { unfold r.
    rewrite (download_after_metadata env self geometry_info start_date
               end_date item_types bundles cloud_cover threads overwrite
               progress_bar s s1 es1 items item_ids chunks
               Hsearch Hne Hids Hwm Hchunks).
    cbn [emitted]. rewrite Hwmev. reflexivity. }
  repeat split; auto.
  unfold r.
  rewrite (download_after_metadata env self geometry_info start_date
             end_date item_types bundles cloud_cover threads overwrite
             progress_bar s s1 es1 items item_ids chunks
             Hsearch Hne Hids Hwm Hchunks).
  cbn [emitted]. rewrite Hwmev, !count_events_app.
  rewrite (count_events_none is_to_file es1)
    by (eapply Forall_impl; [exact Hes1|]; now intros ev [? _]).
  rewrite (count_events_none is_to_file (emitted _)).
  - reflexivity.
  - eapply Forall_impl; [exact Hord|]. intros ev. now destruct ev.
Qed.

(** C10: for a chunk size of at least 1, [_chunk_list] yields no empty
    chunk; and in any run of [download], whatever its result, every order
    request submitted holds one product with at least one identifier. *)
Theorem orders_never_empty :
  (forall (A : Type) (items : list A) (C : Z),
      (1 <= C)%Z ->
      exists chunks,
        _chunk_list items C = Ok chunks
        /\ Forall (fun chunk => chunk <> []) chunks)
  /\ (forall (W : Type) (env : Env W) (self : PlanetDownloader)
             geometry_info start_date end_date item_types bundles cloud_cover
             threads overwrite progress_bar (s : state W),
         Forall (fun ev =>
                   forall req, ev = EvCreateOrder req ->
                   exists p, order_request.products req = [p]
                             /\ order_request.item_ids p <> [])
                (emitted (download env self geometry_info start_date end_date
                                   item_types bundles cloud_cover threads
                                   overwrite progress_bar s))).
Proof.
  split; [intros A items C; apply chunk_list_nonempty_chunks|].
  intros W env self geometry_info start_date end_date item_types bundles
         cloud_cover threads overwrite progress_bar s.
  unfold download.
  apply bind_emitted.
  { eapply Forall_impl; [apply search_emitted|].
    intros ev Hev req ->. discriminate. }
  intros [|i rest]; [constructor|].
  apply bind_emitted.
  { destruct (comprehension_getitem_pure "id" (i :: rest)
                (final (search env geometry_info start_date end_date
                               item_types cloud_cover s))) as [_ ->].
    constructor. }
  intros item_ids. apply bind_emitted.
  { eapply Forall_impl; [apply _write_metadata_emitted|].
    intros ev Hev req ->. discriminate. }
  intros _.
  destruct (lift_chunk_list_ok item_ids) as (chunks & Hchunks & _ & _ & Hne).
  apply bind_emitted_ok; [constructor|].
  intros chunks' Hc'. cbn [lift outcome] in Hc'.
  rewrite Hchunks in Hc'. injection Hc' as <-.
  apply for_each_emitted. intros chunk s1 Hin.
  rewrite List.Forall_forall in Hne. apply Hne in Hin.
  apply for_each_emitted. intros item_type s2 _.
  apply for_each_emitted. intros bundle s3 _.
  eapply Forall_impl; [apply order_step_requests|].
  intros ev Hev req Hreq. rewrite (Hev req Hreq).
  now exists (order_request.product chunk item_type bundle).
Qed.

Lemma orders_never_empty_witness :
  (exists chunks,
      _chunk_list [1; 2; 3; 4; 5; 6; 7] 3 = Ok chunks
      /\ Forall (fun chunk => chunk <> []) chunks)
  /\ Forall (fun ev =>
               forall req, ev = EvCreateOrder req ->
               exists p, order_request.products req = [p]
                         /\ order_request.item_ids p <> [])
            (emitted demo_download).
Proof.
  split.
  - apply (proj1 orders_never_empty nat [1; 2; 3; 4; 5; 6; 7] 3%Z). lia.
  - apply (proj2 orders_never_empty).
Defined.

(** A failed [wait] stops the run after the first order is submitted. *)
Example download_stops_at_failed_order :
  let r := download (failing_wait_env demo_items) demo_self demo_geometry
                    "2020-01-01" "2020-02-01" demo_item_types demo_bundles
                    (VFloat (2 # 10)) 4 false true demo_state in
  outcome r = Raise (CollaboratorError "order failed")
  /\ count_events is_create_order (emitted r) = 1
  /\ count_events is_to_file (emitted r) = 1.
Proof. vm_compute. auto. Qed.

(** * Further properties *)

(** ** The batcher outside its precondition, and where items land *)

(** X1: with a chunk size of 0 the generator raises [ValueError] at its
    first step, and with a negative one it yields nothing, whatever the
    list. *)
Theorem chunk_list_bad_size {A} (items : list A) (C : Z) :
  (C <= 0)%Z ->
  _chunk_list items C
  = if (C =? 0)%Z then Raise (ValueError "range() arg 3 must not be zero")
    else Ok [].
Proof.
  intros HC. unfold _chunk_list, Py.range.
  destruct (Z.eqb_spec C 0) as [->|Hne]; [reflexivity|].
  unfold Py.range_len.
  destruct (Z.ltb_spec 0 C); [lia|].
  destruct (Z.ltb_spec (Z.of_nat (length items)) 0); [lia|].
  reflexivity.
Qed.

Lemma chunk_list_bad_size_witness :
  _chunk_list [1; 2; 3] (-2)
  = if (-2 =? 0)%Z then Raise (ValueError "range() arg 3 must not be zero")
    else Ok [].
Proof. apply (chunk_list_bad_size [1; 2; 3] (-2)). lia. Defined.

(** X2: for a chunk size [C] of at least 1, the item at index [j] of the
    list is the item at index [j mod C] of chunk [j / C]. *)
Theorem chunk_list_index {A} (items : list A) (C : Z) (j : nat) (x : A) :
  (1 <= C)%Z ->
  items !! j = Some x ->
  exists chunks chunk,
    _chunk_list items C = Ok chunks
    /\ chunks !! (j / Z.to_nat C) = Some chunk
    /\ chunk !! (j mod Z.to_nat C) = Some x.
Proof.
  intros HC Hj.
  set (c := Z.to_nat C).
  assert (Hc : 0 < c) by (unfold c; lia).
  replace C with (Z.of_nat c) by (unfold c; lia).
  apply lookup_lt_Some in Hj as Hlt.
  pose proof (ceil_div_covers (length items) c Hc) as Hcov.
  pose proof (Nat.div_mod_eq j c) as Hdm.
  pose proof (Nat.mod_upper_bound j c ltac:(lia)) as Hmod.
  assert (Hk : j / c < ceil_div (length items) c) by nia.
  eexists _, _. split; [now apply _chunk_list_pos|]. split.
  - now apply lookup_chunks_upto.
  - rewrite lookup_take_lt by exact Hmod.
    rewrite lookup_drop. rewrite <- Hj. f_equal. lia.
Qed.

Lemma chunk_list_index_witness :
  exists chunks chunk,
    _chunk_list [10; 11; 12; 13; 14; 15; 16] 3 = Ok chunks
    /\ chunks !! (5 / Z.to_nat 3) = Some chunk
    /\ chunk !! (5 mod Z.to_nat 3) = Some 15.
Proof.
  apply (chunk_list_index [10; 11; 12; 13; 14; 15; 16] 3 5 15);
    [lia | reflexivity].
Defined.

(** ** The area of interest given as a path *)

Lemma _load_aoi_path_emitted {W} (env : Env W) (path : string) (s : state W) :
  emitted (_load_aoi env (VStr path) s) = [EvReadFile path].
Proof.
  unfold _load_aoi, bind, call, lift, new_dict.
  destruct (gpd_read_file env (world s) path) as [[gdf|e] w]; simpl; auto.
  destruct (gdf_unary_union env gdf); simpl; auto.
  destruct (shapely_mapping env a); simpl; auto.
Qed.

(** X3: given a path, [_load_aoi] reads that file, and nothing else
    reaches the outside, whether the call returns or raises; it leaves
    every dictionary of the store as it was; and what it returns is a new
    dictionary holding the mapping of the union of the file's shapes. *)
Theorem load_aoi_path_reads_file {W} (env : Env W) (path : string)
    (s : state W) :
  let r := _load_aoi env (VStr path) s in
  emitted r = [EvReadFile path]
  /\ (forall l kv, heap s !! l = Some kv -> heap (final r) !! l = Some kv)
  /\ (forall v,
         outcome r = Ok v ->
         exists l gdf union kv,
           v = VDict l
           /\ heap s !! l = None
           /\ fst (gpd_read_file env (world s) path) = Ok gdf
           /\ gdf_unary_union env gdf = Ok union
           /\ shapely_mapping env union = Ok kv
           /\ heap (final r) !! l = Some kv).
Proof.
  intros r. unfold r, _load_aoi, bind, call, lift, new_dict.
  destruct (gpd_read_file env (world s) path) as [[gdf|e] w]; simpl;
    [|repeat split; auto; discriminate].
  destruct (gdf_unary_union env gdf) as [union|e] eqn:Hu; simpl;
    [|repeat split; auto; discriminate].
  destruct (shapely_mapping env union) as [kv|e] eqn:Hm; simpl;
    [|repeat split; auto; discriminate].
  pose proof (fresh_loc_unused (heap s)) as Hfresh.
  split; [reflexivity|]. split.
  - intros l kv' Hl. rewrite lookup_insert_ne; [exact Hl|]. congruence.
  - intros v [= <-]. exists (fresh (dom (heap s))), gdf, union, kv.
    repeat split; auto. apply lookup_insert_eq.
Qed.

(** ** What [search] does before it queries the catalog *)

(** X4: when a date does not parse, [search] raises the parser's error
    for the first date that fails, start date first, without querying the
    catalog: it stops where the resolution of the area of interest left
    it. *)
Theorem search_stops_on_bad_date {W} (env : Env W)
    geometry_info start_date end_date item_type cloud_cover
    (s s0 : state W) aoi es0 e :
  _load_aoi env geometry_info s = Run (Ok aoi) s0 es0 ->
  datetime_strptime env start_date "%Y-%m-%d" = Raise e
  \/ (exists d, datetime_strptime env start_date "%Y-%m-%d" = Ok d
                /\ datetime_strptime env end_date "%Y-%m-%d" = Raise e) ->
  search env geometry_info start_date end_date item_type cloud_cover s
  = Run (Raise e) s0 es0
  /\ forall its g f, ~ In (EvSearch its g f) es0.
Proof.
  intros Haoi Hdates. split.
  - unfold search.
    rewrite (bind_ok _ _ _ aoi) by now rewrite Haoi.
    rewrite Haoi. cbn [outcome final emitted].
    unfold bind, lift. simpl.
    destruct Hdates as [->|(d & -> & ->)]; simpl; now rewrite app_nil_r.
  - intros its g f Hin.
    pose proof (_load_aoi_emitted env geometry_info s) as Hev.
    rewrite Haoi in Hev. simpl in Hev.
    rewrite List.Forall_forall in Hev. apply Hev in Hin. discriminate.
Qed.

Lemma search_stops_on_bad_date_witness :
  search (strict_dates_env demo_items) demo_geometry "2020-01-01" "2020-2-1"
         ["PSScene"] (VFloat (2 # 10)) demo_state
  = Run (Raise (ValueError "time data does not match format")) demo_state []
  /\ forall its g f, ~ In (EvSearch its g f) [].
Proof.
  apply (search_stops_on_bad_date
           (strict_dates_env demo_items) demo_geometry "2020-01-01" "2020-2-1"
           ["PSScene"] (VFloat (2 # 10)) demo_state demo_state demo_geometry []).
  - reflexivity.
  - right. exists (VForeign "2020-01-01"). split; reflexivity.
Defined.

Lemma search_emitted_shape {W} (env : Env W)
    geometry_info start_date end_date item_type cloud_cover (s : state W) :
  exists query,
    emitted (search env geometry_info start_date end_date item_type
                    cloud_cover s)
    = match geometry_info with
      | VStr path => [EvReadFile path]
      | _ => []
      end ++ query
    /\ (query = [] \/ exists aoi f, query = [EvSearch item_type aoi f]).
Proof.
  assert (Haoi : emitted (_load_aoi env geometry_info s)
                 = match geometry_info with
                   | VStr path => [EvReadFile path]
                   | _ => []
                   end).
  { destruct geometry_info; try reflexivity.
    apply _load_aoi_path_emitted. }
  unfold search. unfold bind at 1. rewrite Haoi.
  destruct (outcome (_load_aoi env geometry_info s)) as [aoi|e]; simpl.
  - unfold bind, lift. simpl.
    destruct (datetime_strptime env start_date "%Y-%m-%d") as [d1|e1]; simpl.
    + destruct (datetime_strptime env end_date "%Y-%m-%d") as [d2|e2]; simpl.
      * destruct (pl_data_search _ _ _ _ _ _) as [[r h] w]. simpl.
        eexists. split; [reflexivity|]. right. eauto.
      * exists []. auto.
    + exists []. auto.
  - exists []. rewrite app_nil_r. auto.
Qed.

(** X5: in any run, [search] reaches the outside at most twice: the read
    of the file when the area of interest is a path, then at most one
    catalog query, for the item types it was given. *)
Theorem search_outside_calls {W} (env : Env W)
    geometry_info start_date end_date item_type cloud_cover (s : state W) :
  exists query,
    emitted (search env geometry_info start_date end_date item_type
                    cloud_cover s)
    = match geometry_info with
      | VStr path => [EvReadFile path]
      | _ => []
      end ++ query
    /\ (query = [] \/ exists aoi f, query = [EvSearch item_type aoi f]).
Proof. apply search_emitted_shape. Qed.

(** ** Where the metadata goes, and what is in it *)

Lemma prefix_append (a b : string) : String.prefix a (a +:+ b) = true.
Proof.
  induction a as [|c a IH]; simpl; [now destruct b|].
  destruct (ascii_dec c c); [exact IH | contradiction].
Qed.

Lemma os_path_join_under (a b : string) :
  starts_with_slash b = false ->
  String.prefix a (os_path_join a b) = true.
Proof.
  intros Hb. unfold os_path_join. rewrite Hb.
  destruct (String.eqb a "" || ends_with_slash a)%bool; apply prefix_append.
Qed.

Section TableFacts.
Context {W : Type} (env : Env W) (self : PlanetDownloader).
Implicit Types (s : state W) (h : gmap loc (gmap string value)).

Lemma now_strftime_run fmt s :
  now_strftime env fmt s
  = Run (Ok (fst (datetime_now_strftime env (world s) fmt)))
        (mkState (heap s) (snd (datetime_now_strftime env (world s) fmt))) [].
Proof.
  unfold now_strftime. now destruct (datetime_now_strftime env (world s) fmt).
Qed.

(** The run of [_write_metadata], by the result of its loop. *)
Lemma _write_metadata_run metadata driver s :
  let stamp := fst (datetime_now_strftime env (world s) "%Y%m%d_%H%M%S") in
  let s1 := mkState (heap s)
              (snd (datetime_now_strftime env (world s) "%Y%m%d_%H%M%S")) in
  let ext := if String.eqb driver "GeoJSON" then "geojson" else "gpkg" in
  let path := os_path_join (download_dir self)
                           ("metadata-" +:+ stamp +:+ "." +:+ ext) in
  let recs := metadata_records env metadata [] s1 in
  _write_metadata env self metadata driver s
  = match outcome recs with
    | Raise e => Run (Raise e) (final recs) []
    | Ok rows =>
        match gpd_GeoDataFrame_init env rows "geometry" "EPSG:4326" with
        | Raise e => Run (Raise e) (final recs) []
        | Ok _ =>
            let gdf := mkGeoDataFrame rows "geometry" "EPSG:4326" in
            Run (fst (gdf_to_file env (world (final recs)) gdf path driver))
                (mkState (heap (final recs))
                   (snd (gdf_to_file env (world (final recs)) gdf path driver)))
                [EvToFile gdf path driver]
        end
    end.
Proof.
  intros stamp s1 ext path recs. unfold _write_metadata.
  rewrite (bind_ok _ _ _ stamp) by now rewrite now_strftime_run.
  rewrite now_strftime_run. cbn [outcome final emitted app].
  fold s1. fold ext. fold path.
  pose proof (metadata_records_silent env metadata [] s1) as Hsilent.
  fold recs in Hsilent.
  destruct (outcome recs) as [rows|e] eqn:Hrecs.
  - rewrite (bind_ok _ _ _ rows) by exact Hrecs.
    fold recs. rewrite Hsilent. cbn [outcome final emitted app].
    destruct (gpd_GeoDataFrame_init env rows "geometry" "EPSG:4326")
      as [[]|e] eqn:Hinit.
    + rewrite (bind_ok _ _ _ tt) by reflexivity.
      cbn [lift outcome final emitted app]. now rewrite call_run.
    + now rewrite (bind_raise _ _ _ e) by reflexivity.
  - rewrite (bind_raise _ _ _ e) by exact Hrecs.
    fold recs. now rewrite Hsilent.
Qed.

End TableFacts.

(** X6: in any run, [_write_metadata] reaches the outside at most once,
    to write a table with one row for each record; the file is
    [metadata-<time>.geojson] for the driver [GeoJSON] and
    [metadata-<time>.gpkg] for any other driver, joined to the download
    directory, whose name the path starts with.  A run that writes
    nothing has raised. *)
Theorem write_metadata_target {W} (env : Env W) (self : PlanetDownloader)
    metadata driver (s : state W) :
  let r := _write_metadata env self metadata driver s in
  let stamp := fst (datetime_now_strftime env (world s) "%Y%m%d_%H%M%S") in
  let ext := if String.eqb driver "GeoJSON" then "geojson" else "gpkg" in
  let path := os_path_join (download_dir self)
                           ("metadata-" +:+ stamp +:+ "." +:+ ext) in
  String.prefix (download_dir self) path = true
  /\ ((emitted r = [] /\ exists e, outcome r = Raise e)
      \/ exists rows,
           emitted r
           = [EvToFile (mkGeoDataFrame rows "geometry" "EPSG:4326") path driver]
           /\ length rows = length metadata).
Proof.
  intros r stamp ext path. split.
  - apply os_path_join_under. reflexivity.
  - unfold r. rewrite _write_metadata_run. fold stamp ext path.
    set (recs := metadata_records env metadata [] _).
    destruct (outcome recs) as [rows|e] eqn:Hrecs; [|left; eauto].
    destruct (gpd_GeoDataFrame_init env rows "geometry" "EPSG:4326");
      [|left; eauto].
    right. exists rows. split; [reflexivity|].
    apply metadata_records_length in Hrecs. simpl in Hrecs. lia.
Qed.

(** The same layer takes the records of the demo store. *)
Example geopandas_env_takes_records :
  outcome (_write_metadata (geopandas_env demo_items) demo_self demo_items
                           "GeoJSON" demo_state) = Ok tt.
Proof. vm_compute. reflexivity. Qed.

(** On an empty list, with a layer that wants its geometry column, the
    call raises and nothing is written. *)
Lemma write_metadata_empty_raises :
  let r := _write_metadata (geopandas_env []) demo_self [] "GeoJSON"
                           demo_state in
  outcome r = Raise (ValueError "Unknown column geometry")
  /\ emitted r = []
  /\ count_events is_to_file (emitted r) = 0.
Proof. vm_compute. auto. Qed.

(** C6, as the code has it: [_write_metadata] has no case of its own for
    an empty list.  It runs no turn of its loop, changes no dictionary,
    and hands the empty list to the table constructor: when that raises,
    the call raises the same error and nothing is written; when it
    returns, the one call to the outside is the write of a table of zero
    records to the dated file of the download directory, and the call
    ends as that write does. *)
Theorem write_metadata_empty_no_special_case {W} (env : Env W)
    (self : PlanetDownloader) driver (s : state W) :
  let r := _write_metadata env self [] driver s in
  let clock := datetime_now_strftime env (world s) "%Y%m%d_%H%M%S" in
  let ext := if String.eqb driver "GeoJSON" then "geojson" else "gpkg" in
  let path := os_path_join (download_dir self)
                           ("metadata-" +:+ fst clock +:+ "." +:+ ext) in
  let frame := mkGeoDataFrame [] "geometry" "EPSG:4326" in
  heap (final r) = heap s
  /\ match gpd_GeoDataFrame_init env [] "geometry" "EPSG:4326" with
     | Raise e => outcome r = Raise e /\ emitted r = []
     | Ok _ =>
         emitted r = [EvToFile frame path driver]
         /\ outcome r = fst (gdf_to_file env (snd clock) frame path driver)
     end.
Proof.
  intros r clock ext path frame. unfold r.
  rewrite _write_metadata_run. cbn [metadata_records ret outcome final].
  fold clock. fold ext. fold path.
  destruct (gpd_GeoDataFrame_init env [] "geometry" "EPSG:4326");
    cbn [outcome final emitted heap world]; auto.
Qed.

Section RowFacts.
Context {W : Type} (env : Env W) (self : PlanetDownloader).
Implicit Types (s : state W) (h : gmap loc (gmap string value)).

Lemma metadata_records_raises item rest acc s :
  In item rest -> is_dict item = false ->
  exists e, outcome (metadata_records env rest acc s) = Raise e.
Proof.
  intros Hin Hnd. revert acc s.
  induction rest as [|x rest IH]; intros acc s; [destruct Hin|].
  simpl. unfold bind at 1.
  destruct (outcome (metadata_record env x s)) as [row|e] eqn:Hx; simpl;
    [|eauto].
  destruct Hin as [->|Hin]; [|now apply IH].
  exfalso. unfold metadata_record in Hx.
  apply bind_inv in Hx as (props & Hp & _).
  unfold dict_get_or_new in Hp. destruct item; discriminate.
Qed.

Lemma outcome_bind_ok {A B} (m : M W A) (f : A -> M W B) s a :
  outcome (m s) = Ok a ->
  outcome (bind m f s) = outcome (f a (final (m s))).
Proof. intros E. now rewrite (bind_ok _ _ _ a E). Qed.

Lemma outcome_bind_raise {A B} (m : M W A) (f : A -> M W B) s e :
  outcome (m s) = Raise e -> outcome (bind m f s) = Raise e.
Proof. intros E. now rewrite (bind_raise _ _ _ e E). Qed.

(** What is left of a turn once ["id"] is written, by its result. *)
Lemma metadata_record_tail_run li di lp kv s :
  heap s !! li = Some di ->
  heap s !! lp = Some kv ->
  outcome ((do g <~ dict_get (VDict li) "geometry" ;;
            do geom <~ (fun s => lift (shapely_shape env (heap s) g) s) ;;
            do kv <~ dict_entries (VDict lp) ;;
            ret (<["geometry" := geom]> kv)) s)
  = match shapely_shape env (heap s) (default VNone (di !! "geometry")) with
    | Ok geom => Ok (<["geometry" := geom]> kv)
    | Raise e => Raise e
    end.
Proof.
  intros Hli Hlp.
  assert (Hg : dict_get (VDict li) "geometry" s
               = Run (Ok (default VNone (di !! "geometry"))) s []).
  { unfold dict_get. now rewrite Hli. }
  assert (Hent : dict_entries (VDict lp) s = Run (Ok kv) s []).
  { unfold dict_entries. now rewrite Hlp. }
  rewrite (outcome_bind_ok _ _ _ (default VNone (di !! "geometry")))
    by now rewrite Hg.
  rewrite Hg. cbn [final].
  destruct (shapely_shape env (heap s) (default VNone (di !! "geometry")))
    as [geom|e] eqn:Hs.
  - rewrite (outcome_bind_ok _ _ _ geom) by exact Hs.
    cbn [lift final].
    rewrite (outcome_bind_ok _ _ _ kv) by now rewrite Hent.
    reflexivity.
  - now rewrite (outcome_bind_raise _ _ _ e) by exact Hs.
Qed.

(** One turn of the loop on a record that has a property mapping. *)
Lemma metadata_record_run_props li di lp dp s :
  heap s !! li = Some di ->
  di !! "properties" = Some (VDict lp) ->
  heap s !! lp = Some dp ->
  li <> lp ->
  let id := default VNone (di !! "id") in
  let h2 := <[lp := <["id" := id]> dp]> (heap s) in
  outcome (metadata_record env (VDict li) s)
  = match shapely_shape env h2 (default VNone (di !! "geometry")) with
    | Ok geom => Ok (<["geometry" := geom]> (<["id" := id]> dp))
    | Raise e => Raise e
    end.
Proof.
  intros Hli Hp Hlp Hne id h2.
  assert (Hget : dict_get_or_new (VDict li) "properties" s
                 = Run (Ok (VDict lp)) s []).
  { unfold dict_get_or_new. now rewrite Hli, Hp. }
  assert (Hid : dict_get (VDict li) "id" s = Run (Ok id) s []).
  { unfold dict_get. now rewrite Hli. }
  assert (Hset : setitem (VDict lp) "id" id s
                 = Run (Ok tt) (mkState h2 (world s)) []).
  { unfold setitem. now rewrite Hlp. }
  unfold metadata_record.
  rewrite (outcome_bind_ok _ _ _ (VDict lp)) by now rewrite Hget.
  rewrite Hget. cbn [final].
  rewrite (outcome_bind_ok _ _ _ id) by now rewrite Hid.
  rewrite Hid. cbn [final].
  rewrite (outcome_bind_ok _ _ _ tt) by now rewrite Hset.
  rewrite Hset. cbn [final].
  apply (metadata_record_tail_run li di lp (<["id" := id]> dp)
           (mkState h2 (world s))).
  - cbn [heap]. unfold h2. rewrite lookup_insert_ne by congruence. exact Hli.
  - cbn [heap]. unfold h2. apply lookup_insert_eq.
Qed.

(** One turn of the loop on a record with no property mapping. *)
Lemma metadata_record_run_new li di s :
  heap s !! li = Some di ->
  di !! "properties" = None ->
  let id := default VNone (di !! "id") in
  exists h2,
    outcome (metadata_record env (VDict li) s)
    = match shapely_shape env h2 (default VNone (di !! "geometry")) with
      | Ok geom => Ok (<["geometry" := geom]> (<["id" := id]> ∅))
      | Raise e => Raise e
      end.
Proof.
  intros Hli Hp id.
  set (l' := fresh (dom (heap s))).
  assert (Hne : l' <> li).
  { intros E. pose proof (fresh_loc_unused (heap s)) as Hf.
    fold l' in Hf. rewrite E in Hf. congruence. }
  set (s1 := mkState (<[l' := ∅]> (heap s)) (world s)).
  set (h2 := <[l' := <["id" := id]> ∅]> (heap s1)).
  exists h2.
  assert (Hli1 : heap s1 !! li = Some di).
  { cbn [s1 heap]. rewrite lookup_insert_ne by exact Hne. exact Hli. }
  assert (Hget : dict_get_or_new (VDict li) "properties" s
                 = Run (Ok (VDict l')) s1 []).
  { unfold dict_get_or_new. now rewrite Hli, Hp. }
  assert (Hid : dict_get (VDict li) "id" s1 = Run (Ok id) s1 []).
  { unfold dict_get. now rewrite Hli1. }
  assert (Hset : setitem (VDict l') "id" id s1
                 = Run (Ok tt) (mkState h2 (world s1)) []).
  { unfold setitem. cbn [s1 heap]. now rewrite lookup_insert_eq. }
  unfold metadata_record.
  rewrite (outcome_bind_ok _ _ _ (VDict l')) by now rewrite Hget.
  rewrite Hget. cbn [final].
  rewrite (outcome_bind_ok _ _ _ id) by now rewrite Hid.
  rewrite Hid. cbn [final].
  rewrite (outcome_bind_ok _ _ _ tt) by now rewrite Hset.
  rewrite Hset. cbn [final].
  apply (metadata_record_tail_run li di l' (<["id" := id]> ∅)
           (mkState h2 (world s1))).
  - cbn [heap]. unfold h2. rewrite lookup_insert_ne by exact Hne. exact Hli1.
  - cbn [heap]. unfold h2. apply lookup_insert_eq.
Qed.

Lemma metadata_record_row h0 records item s row :
  persister_inv h0 records (heap s) ->
  In item records ->
  has_shape h0 item ->
  records_separate h0 records ->
  outcome (metadata_record env item s) = Ok row ->
  row_of_record env h0 item row.
Proof.
  intros [I1 I2] Hin (li & di & -> & Hli & Hprops) Hsep Hok.
  destruct (I1 li di Hli) as (di' & Hli' & _ & Hsame).
  rewrite (Hsame (Hsep li Hin)) in Hli'. clear Hsame di'.
  exists li, di. split; [reflexivity|]. split; [exact Hli|].
  destruct Hprops as [Hnone|(lp & Hp & [dp Hlp])].
  - destruct (metadata_record_run_new li di s Hli' Hnone) as [h2 Hrun].
    rewrite Hrun in Hok.
    destruct (shapely_shape env h2 (default VNone (di !! "geometry")))
      as [geom|e] eqn:Hs; [|discriminate].
    injection Hok as <-. split.
    { rewrite lookup_insert_ne by discriminate. apply lookup_insert_eq. }
    split.
    { exists h2, geom. split; [exact Hs | apply lookup_insert_eq]. }
    intros key Hid Hgeo. rewrite !lookup_insert_ne by congruence.
    unfold record_property, properties_of, entries_of.
    rewrite Hli, Hnone. apply lookup_empty.
  - destruct (I1 lp dp Hlp) as (dp' & Hlp' & Hagree & _).
    assert (Hne : li <> lp).
    { intros ->. apply (Hsep lp Hin). exists lp, di. auto. }
    rewrite (metadata_record_run_props li di lp dp' s Hli' Hp Hlp' Hne) in Hok.
    destruct (shapely_shape env _ (default VNone (di !! "geometry")))
      as [geom|e] eqn:Hs; [|discriminate].
    injection Hok as <-. split.
    { rewrite lookup_insert_ne by discriminate. apply lookup_insert_eq. }
    split.
    { eexists _, geom. split; [exact Hs | apply lookup_insert_eq]. }
    intros key Hid Hgeo. rewrite !lookup_insert_ne by congruence.
    rewrite Hagree by exact Hid.
    unfold record_property, properties_of, entries_of.
    now rewrite Hli, Hp, Hlp.
Qed.

Lemma metadata_records_rows h0 records rest acc s rows :
  persister_inv h0 records (heap s) ->
  Forall (fun x => In x records /\ has_shape h0 x) rest ->
  records_separate h0 records ->
  outcome (metadata_records env rest acc s) = Ok rows ->
  exists new,
    rows = acc ++ new /\ Forall2 (row_of_record env h0) rest new.
Proof.
  intros Hinv Hall Hsep. revert acc s Hinv.
  induction rest as [|item rest IH]; intros acc s Hinv Hok; simpl in Hok.
  - injection Hok as <-. exists []. rewrite app_nil_r. split; constructor.
  - apply Forall_cons in Hall as [[Hin Hshape] Hrest].
    apply bind_inv in Hok as (row & Hrow & Hok).
    destruct (IH Hrest (acc ++ [row]) _
                (metadata_record_inv env h0 records item s Hin Hinv) Hok)
      as (new & -> & Hnew).
    exists (row :: new). split; [now rewrite <- app_assoc|].
    constructor; [|exact Hnew].
    eapply metadata_record_row; eauto.
Qed.

End RowFacts.

(** X7: when [_write_metadata] returns, on records of the expected shape
    none of which is another's property mapping, the table it wrote has
    the records' rows in order: each row has the record's id under ["id"]
    ([None] for a record without one), the shape of the record's geometry
    under ["geometry"], and the record's properties under their own keys;
    an ["id"] or ["geometry"] among the properties is overridden. *)
Theorem write_metadata_rows {W} (env : Env W) (self : PlanetDownloader)
    metadata driver (s : state W) :
  forallb (record_shaped (heap s)) metadata = true ->
  records_separate (heap s) metadata ->
  let r := _write_metadata env self metadata driver s in
  outcome r = Ok tt ->
  exists rows path,
    emitted r
    = [EvToFile (mkGeoDataFrame rows "geometry" "EPSG:4326") path driver]
    /\ Forall2 (row_of_record env (heap s)) metadata rows.
Proof.
  intros Hshaped Hsep r Hok. unfold r in *.
  rewrite _write_metadata_run in *.
  set (s1 := mkState (heap s) _) in *.
  set (recs := metadata_records env metadata [] s1) in *.
  destruct (outcome recs) as [rows|e] eqn:Hrecs; [|discriminate].
  destruct (gpd_GeoDataFrame_init env rows "geometry" "EPSG:4326");
    [|discriminate].
  eexists rows, _. split; [reflexivity|].
  destruct (metadata_records_rows env (heap s) metadata metadata [] s1 rows)
    as (new & -> & Hnew); auto.
  - apply persister_inv_start.
  - apply List.Forall_forall. intros x Hx. split; [exact Hx|].
    apply record_shaped_has_shape.
    rewrite forallb_forall in Hshaped. now apply Hshaped.
Qed.

Lemma demo_records_separate : records_separate demo_heap demo_items.
Proof.
  intros li Hin (li' & di & Hin' & Hli' & Hp).
  assert (E : match demo_heap !! li' with
              | Some kv => kv !! "properties"
              | None => None
              end = Some (VDict li)) by now rewrite Hli'.
  clear Hli' Hp.
  destruct Hin' as [[= <-]|[[= <-]|[]]]; vm_compute in E;
    injection E as <-;
    destruct Hin as [Hin|[Hin|[]]]; discriminate.
Qed.

Lemma write_metadata_rows_witness :
  exists rows path,
    emitted (_write_metadata (demo_env demo_items) demo_self demo_items
                             "GPKG" demo_state)
    = [EvToFile (mkGeoDataFrame rows "geometry" "EPSG:4326") path "GPKG"]
    /\ Forall2 (row_of_record (demo_env demo_items) (heap demo_state))
               demo_items rows.
Proof.
  apply (write_metadata_rows (demo_env demo_items) demo_self demo_items
                             "GPKG" demo_state).
  - vm_compute. reflexivity.
  - exact demo_records_separate.
  - vm_compute. reflexivity.
Defined.

(** X8: handed a list that holds [None], a boolean, a number or a
    string, [_write_metadata] raises and writes no file. *)
Theorem write_metadata_rejects_scalars {W} (env : Env W)
    (self : PlanetDownloader) metadata driver (s : state W) item :
  In item metadata ->
  is_scalar item = true ->
  let r := _write_metadata env self metadata driver s in
  (exists e, outcome r = Raise e) /\ emitted r = [].
Proof.
  intros Hin Hsc r. unfold r. rewrite _write_metadata_run.
  assert (Hnd : is_dict item = false) by (destruct item; auto; discriminate).
  destruct (metadata_records_raises env item metadata []
              (mkState (heap s)
                 (snd (datetime_now_strftime env (world s) "%Y%m%d_%H%M%S")))
              Hin Hnd) as [e He].
  rewrite He. simpl. eauto.
Qed.

Lemma write_metadata_rejects_scalars_witness :
  let r := _write_metadata (demo_env demo_items) demo_self
                           [VDict 1%positive; VNone] "GeoJSON" demo_state in
  (exists e, outcome r = Raise e) /\ emitted r = [].
Proof.
  apply (write_metadata_rejects_scalars
           (demo_env demo_items) demo_self
           [VDict 1%positive; VNone] "GeoJSON" demo_state VNone).
  - right. left. reflexivity.
  - reflexivity.
Defined.

(** ** The metadata of a run, row by row *)

(** The rows of a call that returns, as in the table it wrote. *)
Lemma _write_metadata_rows {W} (env : Env W) (self : PlanetDownloader)
    metadata driver (s : state W) :
  forallb (record_shaped (heap s)) metadata = true ->
  records_separate (heap s) metadata ->
  outcome (_write_metadata env self metadata driver s) = Ok tt ->
  exists rows path,
    emitted (_write_metadata env self metadata driver s)
    = [EvToFile (mkGeoDataFrame rows "geometry" "EPSG:4326") path driver]
    /\ Forall2 (row_of_record env (heap s)) metadata rows.
Proof.
  intros Hshaped Hsep Hok.
  rewrite _write_metadata_run in *.
  set (s1 := mkState (heap s) _) in *.
  set (recs := metadata_records env metadata [] s1) in *.
  destruct (outcome recs) as [rows|e] eqn:Hrecs; [|discriminate].
  destruct (gpd_GeoDataFrame_init env rows "geometry" "EPSG:4326");
    [|discriminate].
  eexists rows, _. split; [reflexivity|].
  destruct (metadata_records_rows env (heap s) metadata metadata [] s1 rows)
    as (new & -> & Hnew); auto.
  - apply persister_inv_start.
  - apply List.Forall_forall. intros x Hx. split; [exact Hx|].
    apply record_shaped_has_shape.
    rewrite forallb_forall in Hshaped. now apply Hshaped.
Qed.

(** C4: in a run of [download] over a search result that is not empty,
    of well-formed records none of which is another's property mapping,
    in which the persister returns: the metadata is written exactly once,
    every call to the order service comes after that write, whatever the
    order service does, and the table written holds the whole result, a
    row for each record in order, with the record's id, the shape of its
    geometry and its properties. *)
Theorem download_writes_metadata_once {W} (env : Env W) (self : PlanetDownloader)
    geometry_info start_date end_date item_types bundles cloud_cover
    threads overwrite progress_bar (s s1 : state W) es1 items :
  search env geometry_info start_date end_date item_types cloud_cover s
  = Run (Ok items) s1 es1 ->
  items <> [] ->
  forallb (record_well_formed (heap s1)) items = true ->
  records_separate (heap s1) items ->
  outcome (_write_metadata env self items "GeoJSON" s1) = Ok tt ->
  let r := download env self geometry_info start_date end_date item_types
                    bundles cloud_cover threads overwrite progress_bar s in
  exists rows path orders,
    emitted r
    = es1 ++ EvToFile (mkGeoDataFrame rows "geometry" "EPSG:4326")
                      path "GeoJSON" :: orders
    /\ Forall2 (row_of_record env (heap s1)) items rows
    /\ length rows = length items
    /\ Forall (fun ev => is_to_file ev = false /\ is_order_event ev = false) es1
    /\ Forall (fun ev => is_order_event ev = true) orders
    /\ count_events is_to_file (emitted r) = 1.
Proof.
  intros Hsearch Hne Hwf Hsep Hwm r.
  apply forallb_well_formed in Hwf as [Hshaped Hids].
  destruct (item_ids_returns items s1 Hids) as [item_ids Hitem_ids].
  destruct (download_metadata_of_run env self geometry_info start_date
              end_date item_types bundles cloud_cover threads overwrite
              progress_bar s s1 es1 items item_ids
              Hsearch Hne Hitem_ids Hwm)
    as (rows & path & orders & Hr & Hev & Hlen & Hes1 & Hord & Hcount).
  destruct (_write_metadata_rows env self items "GeoJSON" s1
              Hshaped Hsep Hwm) as (rows' & path' & Hev' & Hrows).
  rewrite Hev in Hev'. injection Hev' as <- <-.
  exists rows, path, orders. repeat split; auto.
Qed.

Lemma download_writes_metadata_once_witness :
  exists rows path orders,
    emitted demo_download
    = [demo_search_event]
      ++ EvToFile (mkGeoDataFrame rows "geometry" "EPSG:4326")
                  path "GeoJSON" :: orders
    /\ Forall2 (row_of_record (demo_env demo_items) (heap demo_state))
               demo_items rows
    /\ length rows = length demo_items
    /\ Forall (fun ev => is_to_file ev = false /\ is_order_event ev = false)
              [demo_search_event]
    /\ Forall (fun ev => is_order_event ev = true) orders
    /\ count_events is_to_file (emitted demo_download) = 1.
Proof.
  apply (download_writes_metadata_once
           (demo_env demo_items) demo_self demo_geometry
           "2020-01-01" "2020-02-01" demo_item_types demo_bundles
           (VFloat (2 # 10)) 4 false true demo_state demo_state
           [demo_search_event] demo_items).
  - reflexivity.
  - discriminate.
  - vm_compute. reflexivity.
  - exact demo_records_separate.
  - vm_compute. reflexivity.
Defined.

(** ** Runs of [download] that stop early, or have nothing to order *)

Lemma order_calls_app es1 es2 :
  order_calls (es1 ++ es2) = order_calls es1 ++ order_calls es2.
Proof. apply List.filter_app. Qed.

Lemma order_calls_none es :
  Forall (fun ev => is_order_event ev = false) es -> order_calls es = [].
Proof.
  unfold order_calls. induction 1 as [|ev es Hev _ IH]; simpl; [reflexivity|].
  now rewrite Hev.
Qed.

Lemma order_calls_all es :
  Forall (fun ev => is_order_event ev = true) es -> order_calls es = es.
Proof.
  unfold order_calls. induction 1 as [|ev es Hev _ IH]; simpl; [reflexivity|].
  rewrite Hev. now f_equal.
Qed.

Section EarlyStops.
Context {W : Type} (env : Env W) (self : PlanetDownloader).
Context (geometry_info : value) (start_date end_date : string).
Context (item_types bundles : list string) (cloud_cover : value).
Context (threads : Z) (overwrite progress_bar : bool).
Implicit Types (s : state W).

Lemma comprehension_ids_raise items s :
  forallb (record_has_id (heap s)) items = false ->
  exists e,
    outcome (comprehension (fun i => getitem i "id") items s) = Raise e
    /\ (e = KeyError "id" \/ e = TypeError "not subscriptable").
Proof.
  induction items as [|item items IH]; simpl; [discriminate|].
  intros Hall. unfold bind at 1.
  destruct (getitem_pure item "id" s) as [Hf _]. rewrite Hf.
  destruct (outcome (getitem item "id" s)) as [id|e] eqn:Hget; simpl.
  - assert (Hid : record_has_id (heap s) item = true).
    { unfold getitem in Hget. unfold record_has_id.
      destruct item; try discriminate.
      destruct (heap s !! l) as [di|]; [|discriminate].
      now destruct (di !! "id"). }
    rewrite Hid in Hall. simpl in Hall.
    destruct (IH Hall) as (e & He & Hkind).
    exists e. split; [|exact Hkind].
    now rewrite (bind_raise _ _ _ e) by exact He.
  - exists e. split; [reflexivity|].
    unfold getitem in Hget. destruct item; try (injection Hget as <-; auto).
    destruct (heap s !! l) as [di|]; [|injection Hget as <-; auto].
    destruct (di !! "id"); [discriminate|]. injection Hget as <-. auto.
Qed.

Lemma _write_metadata_no_orders metadata driver s :
  Forall (fun ev => is_order_event ev = false)
         (emitted (_write_metadata env self metadata driver s)).
Proof.
  eapply Forall_impl; [apply _write_metadata_emitted|].
  intros ev. now destruct ev.
Qed.

Lemma search_no_orders s :
  Forall (fun ev => is_order_event ev = false)
         (emitted (search env geometry_info start_date end_date
                          item_types cloud_cover s)).
Proof.
  eapply Forall_impl; [apply search_emitted|].
  intros ev. now destruct ev.
Qed.

(** The run of [download] when the persister raises. *)
Lemma download_persister_raises s s1 es1 items item_ids e :
  search env geometry_info start_date end_date item_types cloud_cover s
  = Run (Ok items) s1 es1 ->
  items <> [] ->
  outcome (comprehension (fun i => getitem i "id") items s1) = Ok item_ids ->
  outcome (_write_metadata env self items "GeoJSON" s1) = Raise e ->
  download env self geometry_info start_date end_date item_types bundles
           cloud_cover threads overwrite progress_bar s
  = Run (Raise e) (final (_write_metadata env self items "GeoJSON" s1))
        (es1 ++ emitted (_write_metadata env self items "GeoJSON" s1)).
Proof.
  intros Hsearch Hne Hids Hwm. unfold download.
  rewrite (bind_ok _ _ _ items) by now rewrite Hsearch.
  rewrite Hsearch. cbn [outcome final emitted].
  destruct items as [|i rest]; [contradiction|].
  destruct (comprehension_getitem_pure "id" (i :: rest) s1) as [Hf He].
  rewrite (bind_ok _ _ _ item_ids) by exact Hids.
  rewrite Hf, He. cbn [outcome final emitted app].
  now rewrite (bind_raise _ _ _ e) by exact Hwm.
Qed.

End EarlyStops.

(** X9: [download] reads every record's id before anything else: when a
    record of the search result has no ["id"] (or is not a dictionary)
    the run raises [KeyError] (or [TypeError]) where the search left it,
    with no metadata written and no order placed. *)
Theorem download_needs_ids {W} (env : Env W) (self : PlanetDownloader)
    geometry_info start_date end_date item_types bundles cloud_cover
    threads overwrite progress_bar (s s1 : state W) es1 items :
  search env geometry_info start_date end_date item_types cloud_cover s
  = Run (Ok items) s1 es1 ->
  forallb (record_has_id (heap s1)) items = false ->
  exists e,
    download env self geometry_info start_date end_date item_types bundles
             cloud_cover threads overwrite progress_bar s
    = Run (Raise e) s1 es1
    /\ (e = KeyError "id" \/ e = TypeError "not subscriptable").
Proof.
  intros Hsearch Hids.
  destruct (comprehension_ids_raise items s1 Hids) as (e & He & Hkind).
  exists e. split; [|exact Hkind].
  unfold download.
  rewrite (bind_ok _ _ _ items) by now rewrite Hsearch.
  rewrite Hsearch. cbn [outcome final emitted].
  destruct items as [|i rest]; [discriminate|].
  destruct (comprehension_getitem_pure "id" (i :: rest) s1) as [Hf Hem].
  rewrite (bind_raise _ _ _ e) by exact He.
  rewrite Hf, Hem. cbn [outcome final emitted]. now rewrite app_nil_r.
Qed.

Lemma download_needs_ids_witness :
  exists e,
    download (demo_env demo_items) demo_self demo_geometry
             "2020-01-01" "2020-02-01" demo_item_types demo_bundles
             (VFloat (2 # 10)) 4 false true (mkState demo_heap_no_id 0)
    = Run (Raise e) (mkState demo_heap_no_id 0) [demo_search_event]
    /\ (e = KeyError "id" \/ e = TypeError "not subscriptable").
Proof.
  apply (download_needs_ids
           (demo_env demo_items) demo_self demo_geometry
           "2020-01-01" "2020-02-01" demo_item_types demo_bundles
           (VFloat (2 # 10)) 4 false true
           (mkState demo_heap_no_id 0) (mkState demo_heap_no_id 0)
           [demo_search_event] demo_items).
  - reflexivity.
  - vm_compute. reflexivity.
Defined.

(** X10: when the persister raises, [download] raises the same error and
    places no order: its calls are those of the search followed by those
    of the persister, none of them to the order service. *)
Theorem download_stops_when_persister_raises {W} (env : Env W)
    (self : PlanetDownloader)
    geometry_info start_date end_date item_types bundles cloud_cover
    threads overwrite progress_bar (s s1 : state W) es1 items item_ids e :
  search env geometry_info start_date end_date item_types cloud_cover s
  = Run (Ok items) s1 es1 ->
  items <> [] ->
  outcome (comprehension (fun i => getitem i "id") items s1) = Ok item_ids ->
  outcome (_write_metadata env self items "GeoJSON" s1) = Raise e ->
  let r := download env self geometry_info start_date end_date item_types
                    bundles cloud_cover threads overwrite progress_bar s in
  outcome r = Raise e
  /\ emitted r = es1 ++ emitted (_write_metadata env self items "GeoJSON" s1)
  /\ order_calls (emitted r) = [].
Proof.
  intros Hsearch Hne Hids Hwm r. unfold r.
  rewrite (download_persister_raises env self geometry_info start_date
             end_date item_types bundles cloud_cover threads overwrite
             progress_bar s s1 es1 items item_ids e Hsearch Hne Hids Hwm).
  cbn [outcome emitted]. repeat split.
  rewrite order_calls_app.
  rewrite (order_calls_none es1), (order_calls_none (emitted _)); auto.
  - apply _write_metadata_no_orders.
  - pose proof (search_no_orders env geometry_info start_date end_date
                  item_types cloud_cover s) as Hs.
    now rewrite Hsearch in Hs.
Qed.

Lemma download_stops_when_persister_raises_witness :
  let r := download (failing_shape_env demo_items) demo_self demo_geometry
                    "2020-01-01" "2020-02-01" demo_item_types demo_bundles
                    (VFloat (2 # 10)) 4 false true demo_state in
  outcome r = Raise (CollaboratorError "bad geometry")
  /\ emitted r
     = [demo_search_event]
       ++ emitted (_write_metadata (failing_shape_env demo_items) demo_self
                                   demo_items "GeoJSON" demo_state)
  /\ order_calls (emitted r) = [].
Proof.
  apply (download_stops_when_persister_raises
           (failing_shape_env demo_items) demo_self demo_geometry
           "2020-01-01" "2020-02-01" demo_item_types demo_bundles
           (VFloat (2 # 10)) 4 false true demo_state demo_state
           [demo_search_event] demo_items [VStr "a"; VStr "b"]).
  - reflexivity.
  - discriminate.
  - vm_compute. reflexivity.
  - vm_compute. reflexivity.
Defined.

Lemma for_each_quiet {W A} (xs : list A) (body : A -> M W unit) :
  (forall x s, emitted (body x s) = [] /\ outcome (body x s) = Ok tt) ->
  forall s, emitted (for_each xs body s) = []
            /\ outcome (for_each xs body s) = Ok tt.
Proof.
  intros Hbody. induction xs as [|x xs IH]; intros s; [split; reflexivity|].
  simpl. destruct (Hbody x s) as [Hem Hout].
  rewrite (bind_ok _ _ _ tt) by exact Hout.
  cbn [outcome emitted]. rewrite Hem. apply IH.
Qed.

(** X11: with no item type or no bundle, [download] places no order in
    any run, and the rest goes on as usual: once the identifiers are read
    and the metadata written, the run returns. *)
Theorem download_without_combinations {W} (env : Env W)
    (self : PlanetDownloader)
    geometry_info start_date end_date item_types bundles cloud_cover
    threads overwrite progress_bar (s : state W) :
  item_types = [] \/ bundles = [] ->
  let r := download env self geometry_info start_date end_date item_types
                    bundles cloud_cover threads overwrite progress_bar s in
  order_calls (emitted r) = []
  /\ forall s1 es1 items item_ids,
       search env geometry_info start_date end_date item_types cloud_cover s
       = Run (Ok items) s1 es1 ->
       items <> [] ->
       outcome (comprehension (fun i => getitem i "id") items s1)
       = Ok item_ids ->
       outcome (_write_metadata env self items "GeoJSON" s1) = Ok tt ->
       outcome r = Ok tt /\ count_events is_to_file (emitted r) = 1.
Proof.
  intros Hnone r.
  assert (Hloops : forall chunks s',
             emitted (for_each chunks (fun chunk =>
                        for_each item_types (fun item_type =>
                          for_each bundles (fun bundle =>
                            order_step env self overwrite progress_bar
                                       chunk item_type bundle))) s') = []
             /\ outcome (for_each chunks (fun chunk =>
                          for_each item_types (fun item_type =>
                            for_each bundles (fun bundle =>
                              order_step env self overwrite progress_bar
                                         chunk item_type bundle))) s')
                = Ok tt).
  { intros chunks s'. apply for_each_quiet. intros chunk s1.
    destruct Hnone as [->| ->]; [split; reflexivity|].
    apply for_each_quiet. intros item_type s2. split; reflexivity. }
  split.
  - apply order_calls_none. unfold r, download.
    apply bind_emitted;
      [apply (search_no_orders env geometry_info start_date end_date
                item_types cloud_cover)|].
    intros [|i rest]; [constructor|].
    apply bind_emitted.
    { destruct (comprehension_getitem_pure "id" (i :: rest)
                  (final (search env geometry_info start_date end_date
                                 item_types cloud_cover s))) as [_ ->].
      constructor. }
    intros item_ids. apply bind_emitted; [apply _write_metadata_no_orders|].
    intros _. apply bind_emitted; [constructor|].
    intros chunks.
    match goal with
    | |- Forall _ (emitted (for_each chunks _ ?s')) =>
        destruct (Hloops chunks s') as [-> _]
    end.
    constructor.
  - intros s1 es1 items item_ids Hsearch Hne Hids Hwm.
    destruct (lift_chunk_list_ok item_ids) as (chunks & Hchunks & _).
    unfold r.
    rewrite (download_after_metadata env self geometry_info start_date
               end_date item_types bundles cloud_cover threads overwrite
               progress_bar s s1 es1 items item_ids chunks
               Hsearch Hne Hids Hwm Hchunks).
    cbn [outcome emitted].
    destruct (Hloops chunks (final (_write_metadata env self items
                                      "GeoJSON" s1))) as [-> ->].
    split; [reflexivity|].
    destruct (_write_metadata_ok env self items "GeoJSON" s1 Hwm)
      as (rows & path & -> & _).
    rewrite app_nil_r, count_events_app.
    rewrite (count_events_none is_to_file es1); [reflexivity|].
    pose proof (search_emitted env geometry_info start_date end_date
                  item_types cloud_cover s) as Hs.
    rewrite Hsearch in Hs. cbn [emitted] in Hs.
    eapply Forall_impl; [exact Hs|]. intros ev. now destruct ev.
Qed.

Lemma download_without_combinations_witness :
  let r := download (demo_env demo_items) demo_self demo_geometry
                    "2020-01-01" "2020-02-01" demo_item_types []
                    (VFloat (2 # 10)) 4 false true demo_state in
  order_calls (emitted r) = []
  /\ forall s1 es1 items item_ids,
       search (demo_env demo_items) demo_geometry "2020-01-01" "2020-02-01"
              demo_item_types (VFloat (2 # 10)) demo_state
       = Run (Ok items) s1 es1 ->
       items <> [] ->
       outcome (comprehension (fun i => getitem i "id") items s1)
       = Ok item_ids ->
       outcome (_write_metadata (demo_env demo_items) demo_self items
                                "GeoJSON" s1) = Ok tt ->
       outcome r = Ok tt /\ count_events is_to_file (emitted r) = 1.
Proof.
  apply (download_without_combinations
           (demo_env demo_items) demo_self demo_geometry
           "2020-01-01" "2020-02-01" demo_item_types []
           (VFloat (2 # 10)) 4 false true demo_state).
  right. reflexivity.
Defined.

(** ** The order calls of any run *)

Section AttemptFacts.
Context {W : Type} (env : Env W) (self : PlanetDownloader).
Context (overwrite progress_bar : bool).
Implicit Types (s : state W).

Lemma order_step_attempts chunk item_type bundle :
  attempts (download_dir self) overwrite progress_bar
           [order_of chunk item_type bundle]
           (order_step env self overwrite progress_bar chunk item_type bundle).
Proof.
  intros s. unfold order_step, _create_order, bind, lift, call.
  fold (order_of chunk item_type bundle).
  cbn [outcome final emitted world heap].
  destruct (order_request_validate env (order_of chunk item_type bundle))
    as [[]|e]; cbn [outcome final emitted world heap app].
  2:{ exists [VNone]. split; [reflexivity|].
      split; [apply prefix_nil | discriminate]. }
  destruct (pl_orders_create_order env (world s)
              (order_of chunk item_type bundle)) as [[order_id|e] w1];
    cbn [outcome final emitted world heap app].
  2:{ exists [VNone]. split; [reflexivity|]. split; [|discriminate].
      now exists [EvWait VNone;
                  EvDownloadOrder VNone (download_dir self)
                                  overwrite progress_bar]. }
  exists [order_id]. split; [reflexivity|].
  destruct (pl_orders_wait env w1 order_id) as [[[]|e] w2];
    cbn [outcome final emitted world heap app].
  2:{ split; [|discriminate].
      now exists [EvDownloadOrder order_id (download_dir self)
                                  overwrite progress_bar]. }
  destruct (pl_orders_download_order env w2 order_id (download_dir self)
              overwrite progress_bar) as [r w3].
  cbn [outcome final emitted world heap app]. split; [reflexivity|].
  reflexivity.
Qed.

Lemma for_each_attempts {A} (reqs : A -> list order_request.Request)
      (body : A -> M W unit) xs :
  (forall x, attempts (download_dir self) overwrite progress_bar
                      (reqs x) (body x)) ->
  attempts (download_dir self) overwrite progress_bar
           (flat_map reqs xs) (for_each xs body).
Proof.
  intros Hbody. induction xs as [|x xs IH]; intros s.
  - exists []. simpl. repeat split; auto.
  - destruct (Hbody x s) as (ids1 & Hlen1 & Hpre1 & Hall1).
    simpl. unfold bind.
    destruct (outcome (body x s)) as [[]|e] eqn:Hx;
      cbn [outcome final emitted].
    + destruct (IH (final (body x s))) as (ids2 & Hlen2 & Hpre2 & Hall2).
      exists (ids1 ++ ids2). split; [rewrite !length_app; lia|].
      rewrite combine_app, flat_map_app by lia.
      rewrite (Hall1 eq_refl). split.
      * now apply prefix_app.
      * intros Hok. now rewrite (Hall2 Hok).
    + destruct (IH s) as (ids2 & Hlen2 & _).
      exists (ids1 ++ ids2). split; [rewrite !length_app; lia|].
      rewrite combine_app, flat_map_app by lia.
      split; [now apply prefix_app_r | discriminate].
Qed.

Lemma order_loops_attempt chunks item_types bundles :
  attempts (download_dir self) overwrite progress_bar
           (planned_orders chunks item_types bundles)
           (for_each chunks (fun chunk =>
              for_each item_types (fun item_type =>
                for_each bundles (fun bundle =>
                  order_step env self overwrite progress_bar
                             chunk item_type bundle)))).
Proof.
  unfold planned_orders.
  apply for_each_attempts. intros chunk.
  apply for_each_attempts. intros item_type.
  replace (map (fun bundle => order_of chunk item_type bundle) bundles)
    with (flat_map (fun bundle => [order_of chunk item_type bundle]) bundles).
  - apply for_each_attempts. intros bundle. apply order_step_attempts.
  - induction bundles; simpl; congruence.
Qed.

End AttemptFacts.

(** X12: in any run of [download], however it ends, the calls to the
    order service are an initial part of the planned sequence: for each
    chunk, item type and bundle in turn, submit the request, wait for an
    order, download that same order.  No combination is skipped, retried
    or taken out of turn, and nothing follows the call that failed. *)
Theorem download_order_calls_in_turn {W} (env : Env W)
    (self : PlanetDownloader)
    geometry_info start_date end_date item_types bundles cloud_cover
    threads overwrite progress_bar (s s1 : state W) es1 items item_ids :
  search env geometry_info start_date end_date item_types cloud_cover s
  = Run (Ok items) s1 es1 ->
  outcome (comprehension (fun i => getitem i "id") items s1) = Ok item_ids ->
  let r := download env self geometry_info start_date end_date item_types
                    bundles cloud_cover threads overwrite progress_bar s in
  exists chunks order_ids,
    _chunk_list item_ids MAX_ITEMS_PER_ORDER = Ok chunks
    /\ length order_ids = length (planned_orders chunks item_types bundles)
    /\ order_calls (emitted r)
       `prefix_of`
       flat_map (order_events (download_dir self) overwrite progress_bar)
                (combine (planned_orders chunks item_types bundles) order_ids)
    /\ (outcome r = Ok tt ->
        order_calls (emitted r)
        = flat_map (order_events (download_dir self) overwrite progress_bar)
                   (combine (planned_orders chunks item_types bundles)
                            order_ids)).
Proof.
  intros Hsearch Hids r.
  destruct (lift_chunk_list_ok item_ids) as (chunks & Hchunks & _).
  exists chunks.
  assert (Hes1 : order_calls es1 = []).
  { apply order_calls_none.
    pose proof (search_no_orders env geometry_info start_date end_date
                  item_types cloud_cover s) as Hs.
    now rewrite Hsearch in Hs. }
  destruct items as [|i rest].
  { (* nothing found: the run exits *)
    destruct (order_loops_attempt env self overwrite progress_bar chunks
                item_types bundles s) as (ids & Hlen & _).
    exists ids. split; [exact Hchunks|]. split; [exact Hlen|].
    assert (Hr : r = Run (Raise (SystemExit (ExitStr
                   "No images found. Make filters more flexible."))) s1 es1).
    { unfold r, download.
      rewrite (bind_ok _ _ _ []) by now rewrite Hsearch.
      rewrite Hsearch. simpl. now rewrite app_nil_r. }
    rewrite Hr. cbn [outcome emitted]. rewrite Hes1.
    split; [apply prefix_nil | discriminate]. }
  destruct (outcome (_write_metadata env self (i :: rest) "GeoJSON" s1))
    as [[]|e] eqn:Hwm.
  - destruct (order_loops_attempt env self overwrite progress_bar chunks
                item_types bundles
                (final (_write_metadata env self (i :: rest) "GeoJSON" s1)))
      as (ids & Hlen & Hpre & Hall).
    exists ids. split; [exact Hchunks|]. split; [exact Hlen|].
    unfold r.
    rewrite (download_after_metadata env self geometry_info start_date
               end_date item_types bundles cloud_cover threads overwrite
               progress_bar s s1 es1 (i :: rest) item_ids chunks
               Hsearch ltac:(discriminate) Hids Hwm Hchunks).
    cbn [outcome emitted].
    rewrite !order_calls_app, Hes1.
    rewrite (order_calls_none (emitted (_write_metadata _ _ _ _ _)))
      by apply _write_metadata_no_orders.
    rewrite order_calls_all
      by apply (order_loops_emitted env self item_types bundles
                  overwrite progress_bar).
    split; [exact Hpre | exact Hall].
  - destruct (order_loops_attempt env self overwrite progress_bar chunks
                item_types bundles s) as (ids & Hlen & _).
    exists ids. split; [exact Hchunks|]. split; [exact Hlen|].
    unfold r.
    rewrite (download_persister_raises env self geometry_info start_date
               end_date item_types bundles cloud_cover threads overwrite
               progress_bar s s1 es1 (i :: rest) item_ids e
               Hsearch ltac:(discriminate) Hids Hwm).
    cbn [outcome emitted].
    rewrite order_calls_app, Hes1.
    rewrite (order_calls_none (emitted (_write_metadata _ _ _ _ _)))
      by apply _write_metadata_no_orders.
    split; [apply prefix_nil | discriminate].
Qed.

Lemma download_order_calls_in_turn_witness :
  let r := download (failing_wait_env demo_items) demo_self demo_geometry
                    "2020-01-01" "2020-02-01" demo_item_types demo_bundles
                    (VFloat (2 # 10)) 4 false true demo_state in
  exists chunks order_ids,
    _chunk_list [VStr "a"; VStr "b"] MAX_ITEMS_PER_ORDER = Ok chunks
    /\ length order_ids
       = length (planned_orders chunks demo_item_types demo_bundles)
    /\ order_calls (emitted r)
       `prefix_of`
       flat_map (order_events (download_dir demo_self) false true)
                (combine (planned_orders chunks demo_item_types demo_bundles)
                         order_ids)
    /\ (outcome r = Ok tt ->
        order_calls (emitted r)
        = flat_map (order_events (download_dir demo_self) false true)
                   (combine (planned_orders chunks demo_item_types demo_bundles)
                            order_ids)).
Proof.
  apply (download_order_calls_in_turn
           (failing_wait_env demo_items) demo_self demo_geometry
           "2020-01-01" "2020-02-01" demo_item_types demo_bundles
           (VFloat (2 # 10)) 4 false true demo_state demo_state
           [demo_search_event] demo_items [VStr "a"; VStr "b"]).
  - reflexivity.
  - vm_compute. reflexivity.
Defined.

(** ** What the collaborators are handed *)

Section SettingFacts.
Context {W : Type} (env : Env W) (self : PlanetDownloader).
Context (geometry_info : value) (start_date end_date : string).
Context (item_types bundles : list string) (cloud_cover : value).
Context (overwrite progress_bar : bool).
Implicit Types (s : state W).

Lemma order_step_settings chunk item_type bundle s :
  In item_type item_types -> In bundle bundles ->
  Forall (call_settings self item_types bundles overwrite progress_bar)
         (emitted (order_step env self overwrite progress_bar
                              chunk item_type bundle s)).
Proof.
  intros Hit Hb. unfold order_step, _create_order.
  apply bind_emitted.
  { apply bind_emitted; [constructor|]. intros _.
    apply call_emitted. simpl. now exists chunk, item_type, bundle. }
  intros order_id. apply bind_emitted; [now apply call_emitted|].
  intros _. apply call_emitted. simpl. auto.
Qed.

Lemma _write_metadata_settings metadata s :
  Forall (call_settings self item_types bundles overwrite progress_bar)
         (emitted (_write_metadata env self metadata "GeoJSON" s)).
Proof.
  rewrite _write_metadata_run.
  destruct (outcome (metadata_records env metadata [] _)) as [rows|e];
    [|constructor].
  destruct (gpd_GeoDataFrame_init env rows "geometry" "EPSG:4326");
    [|constructor].
  constructor; [|constructor]. simpl. repeat split.
  apply os_path_join_under. reflexivity.
Qed.

Lemma search_settings s :
  Forall (call_settings self item_types bundles overwrite progress_bar)
         (emitted (search env geometry_info start_date end_date
                          item_types cloud_cover s)).
Proof.
  destruct (search_emitted_shape env geometry_info start_date end_date
              item_types cloud_cover s) as (query & -> & Hq).
  apply Forall_app. split.
  - destruct geometry_info; repeat constructor.
  - destruct Hq as [->|(aoi & f & ->)]; repeat constructor.
Qed.

End SettingFacts.

Lemma download_call_settings_aux {W} (env : Env W) (self : PlanetDownloader)
    geometry_info start_date end_date item_types bundles cloud_cover
    threads overwrite progress_bar (s : state W) :
  Forall (call_settings self item_types bundles overwrite progress_bar)
         (emitted (download env self geometry_info start_date end_date
                            item_types bundles cloud_cover threads
                            overwrite progress_bar s)).
Proof.
  unfold download.
  apply bind_emitted; [apply search_settings|].
  intros [|i rest]; [constructor|].
  apply bind_emitted.
  { destruct (comprehension_getitem_pure "id" (i :: rest)
                (final (search env geometry_info start_date end_date
                               item_types cloud_cover s))) as [_ ->].
    constructor. }
  intros item_ids. apply bind_emitted; [apply _write_metadata_settings|].
  intros _. apply bind_emitted; [constructor|].
  intros chunks.
  apply for_each_emitted. intros chunk s1 _.
  apply for_each_emitted. intros item_type s2 Hit.
  apply for_each_emitted. intros bundle s3 Hb.
  now apply order_step_settings.
Qed.

(** X13: in any run of [download], the catalog is queried for the item
    types given; the metadata is written with the driver [GeoJSON], as a
    table in EPSG:4326 with geometry column [geometry], to a path that
    starts with the download directory; every order request is named
    [planet_download_order] and holds one product, for an item type and a
    bundle of the lists given; and every download goes to the download
    directory with the overwrite and progress flags given. *)
Theorem download_passes_settings {W} (env : Env W) (self : PlanetDownloader)
    geometry_info start_date end_date item_types bundles cloud_cover
    threads overwrite progress_bar (s : state W) :
  Forall (passed_settings self item_types bundles overwrite progress_bar)
         (emitted (download env self geometry_info start_date end_date
                            item_types bundles cloud_cover threads
                            overwrite progress_bar s)).
Proof.
  eapply Forall_impl; [apply download_call_settings_aux|].
  intros ev Hev. destruct ev; try exact Hev.
  destruct Hev as (chunk & item_type & bundle & Hit & Hb & ->).
  now exists chunk, item_type, bundle.
Qed.

(** ** The constructor and the command line *)

Lemma init_without_key_aux {W} (ienv : InitEnv W) key_arg directory (w : W) :
  truthy key_arg = false ->
  truthy (os_getenv ienv "PL_API_KEY") = false ->
  exists msg,
    __init__ ienv key_arg directory w
    = InitRun (Raise (ValueError msg)) w [].
Proof.
  intros Harg Henv. unfold __init__, py_or. rewrite Harg.
  destruct (os_getenv ienv "PL_API_KEY") as [key|]; [|eauto].
  simpl in Henv. destruct (String.eqb key ""); [eauto | discriminate].
Qed.

(** X14: without a key the constructor raises [ValueError] and does
    nothing else: no directory is made and no session opened.  An empty
    string counts as no key, as an argument and as the value of
    [PL_API_KEY]. *)
Theorem init_without_key {W} (ienv : InitEnv W) key_arg directory (w : W) :
  truthy key_arg = false ->
  truthy (os_getenv ienv "PL_API_KEY") = false ->
  exists msg,
    __init__ ienv key_arg directory w
    = InitRun (Raise (ValueError msg)) w [].
Proof. apply init_without_key_aux. Qed.

Lemma init_without_key_witness :
  exists msg,
    __init__ (demo_init_env (Some "")) (Some "") "./planet_downloads" 0
    = InitRun (Raise (ValueError msg)) 0 [].
Proof.
  apply (init_without_key (demo_init_env (Some "")) (Some "")
                          "./planet_downloads" 0); reflexivity.
Defined.

(** X15: a constructor that returns has made the download directory and
    then opened the session, in that order and once each; the downloader
    keeps the directory it was given and a key that is not empty: the
    argument when it is not empty, the value of [PL_API_KEY] otherwise. *)
Theorem init_with_key {W} (ienv : InitEnv W) key_arg directory (w : W) d :
  init_outcome (__init__ ienv key_arg directory w) = Ok d ->
  init_emitted (__init__ ienv key_arg directory w)
  = [EvMakedirs directory; EvPlanet]
  /\ download_dir d = directory
  /\ truthy (Some (api_key d)) = true
  /\ Some (api_key d)
     = (if truthy key_arg then key_arg else os_getenv ienv "PL_API_KEY").
Proof.
  unfold __init__, py_or.
  destruct (if truthy key_arg then key_arg else os_getenv ienv "PL_API_KEY")
    as [key|]; [|discriminate].
  destruct (String.eqb key "") eqn:Hkey; [discriminate|].
  destruct (os_makedirs ienv w directory) as [[[]|e] w1]; [|discriminate].
  destruct (Planet ienv w1) as [[[]|e] w2]; [|discriminate].
  simpl. intros [= <-]. simpl. now rewrite Hkey.
Qed.

Lemma init_with_key_witness :
  init_emitted (__init__ (demo_init_env (Some "from-env")) (Some "given")
                         "./planet_downloads" 0)
  = [EvMakedirs "./planet_downloads"; EvPlanet]
  /\ download_dir {| api_key := "given"; download_dir := "./planet_downloads" |}
     = "./planet_downloads"
  /\ truthy (Some (api_key {| api_key := "given";
                             download_dir := "./planet_downloads" |})) = true
  /\ Some (api_key {| api_key := "given";
                      download_dir := "./planet_downloads" |})
     = (if truthy (Some "given") then Some "given"
        else os_getenv (demo_init_env (Some "from-env")) "PL_API_KEY").
Proof.
  apply (init_with_key (demo_init_env (Some "from-env")) (Some "given")
                       "./planet_downloads" 0
                       {| api_key := "given";
                          download_dir := "./planet_downloads" |}).
  reflexivity.
Defined.

Lemma download_reads_path_first {W} (env : Env W) (self : PlanetDownloader)
    path start_date end_date item_types bundles cloud_cover
    threads overwrite progress_bar (s : state W) :
  exists rest,
    emitted (download env self (VStr path) start_date end_date item_types
                      bundles cloud_cover threads overwrite progress_bar s)
    = EvReadFile path :: rest.
Proof.
  destruct (search_emitted_shape env (VStr path) start_date end_date
              item_types cloud_cover s) as (query & Hs & _).
  unfold download, bind at 1. rewrite Hs.
  destruct (outcome (search env (VStr path) start_date end_date
                            item_types cloud_cover s)); simpl; eauto.
Qed.

(** X16: run from the command line with no key in [PL_API_KEY], the
    program raises [ValueError] before anything else happens: no
    directory made, no file read, no search, and the process ends with
    status 1. *)
Theorem cli_without_key {W} (ienv : InitEnv W) (env : Env W)
    (args : cli.Args) (s : state W) :
  truthy (os_getenv ienv "PL_API_KEY") = false ->
  let r := cli.script ienv env args s in
  (exists msg, cli.cli_outcome r = Raise (ValueError msg))
  /\ cli.cli_init_emitted r = []
  /\ cli.cli_emitted r = []
  /\ cli.cli_final r = s
  /\ exit_status (cli.cli_outcome r) = 1%Z.
Proof.
  intros Henv r.
  destruct (init_without_key_aux ienv None (cli.output_dir args) (world s)
              eq_refl Henv) as [msg Hinit].
  unfold r, cli.script, cli.main. rewrite Hinit. simpl.
  destruct s. repeat split; eauto.
Qed.

Lemma cli_without_key_witness :
  let r := cli.script (demo_init_env None) (demo_env demo_items)
                      (cli.defaults "aoi.geojson" "2020-01-01" "2020-02-01")
                      demo_state in
  (exists msg, cli.cli_outcome r = Raise (ValueError msg))
  /\ cli.cli_init_emitted r = []
  /\ cli.cli_emitted r = []
  /\ cli.cli_final r = demo_state
  /\ exit_status (cli.cli_outcome r) = 1%Z.
Proof.
  apply (cli_without_key (demo_init_env None) (demo_env demo_items)
           (cli.defaults "aoi.geojson" "2020-01-01" "2020-02-01") demo_state).
  reflexivity.
Defined.

(** X17: run from the command line, the area of interest is always taken
    as a path: once the downloader is made, the first thing the pipeline
    does is read the file named by [--aoi].  Every call then follows the
    arguments: the item types and bundles given, metadata and downloads
    under [--output-dir], overwriting when [--overwrite] is given, the
    progress bar shown unless [--no-progress] is. *)
Theorem cli_follows_arguments {W} (ienv : InitEnv W) (env : Env W)
    (args : cli.Args) (s : state W) downloader :
  init_outcome (__init__ ienv None (cli.output_dir args) (world s))
  = Ok downloader ->
  let r := cli.main ienv env args s in
  download_dir downloader = cli.output_dir args
  /\ (exists rest, cli.cli_emitted r = EvReadFile (cli.aoi args) :: rest)
  /\ Forall (call_settings downloader (cli.item_types args) (cli.bundles args)
                           (cli.overwrite args) (negb (cli.no_progress args)))
            (cli.cli_emitted r).
Proof.
  intros Hinit r. split.
  { unfold __init__ in Hinit.
    destruct (py_or None (os_getenv ienv "PL_API_KEY")) as [key|];
      [|discriminate].
    destruct (String.eqb key ""); [discriminate|].
    destruct (os_makedirs ienv (world s) (cli.output_dir args))
      as [[[]|e] w1]; [|discriminate].
    destruct (Planet ienv w1) as [[[]|e] w2]; [|discriminate].
    simpl in Hinit. now injection Hinit as <-. }
  unfold r, cli.main. rewrite Hinit. cbn [cli.cli_emitted]. split.
  - apply download_reads_path_first.
  - apply download_call_settings_aux.
Qed.

Lemma cli_follows_arguments_witness :
  let args := cli.defaults "aoi.geojson" "2020-01-01" "2020-02-01" in
  let downloader :=
    {| api_key := "from-env"; download_dir := "./planet_downloads" |} in
  let r := cli.main (demo_init_env (Some "from-env")) (demo_env demo_items)
                    args demo_state in
  download_dir downloader = cli.output_dir args
  /\ (exists rest, cli.cli_emitted r = EvReadFile (cli.aoi args) :: rest)
  /\ Forall (call_settings downloader (cli.item_types args) (cli.bundles args)
                           (cli.overwrite args) (negb (cli.no_progress args)))
            (cli.cli_emitted r).
Proof.
  apply (cli_follows_arguments
           (demo_init_env (Some "from-env")) (demo_env demo_items)
           (cli.defaults "aoi.geojson" "2020-01-01" "2020-02-01") demo_state
           {| api_key := "from-env"; download_dir := "./planet_downloads" |}).
  reflexivity.
Defined.

(** ** The orders of a run that returns *)

Section PlacedFacts.
Context {W : Type} (env : Env W) (self : PlanetDownloader).
Context (overwrite progress_bar : bool).
Implicit Types (s : state W).

Lemma orders_placed_app w reqs1 es1 w1 reqs2 es2 w2 :
  orders_placed env (download_dir self) overwrite progress_bar w reqs1 es1 w1 ->
  orders_placed env (download_dir self) overwrite progress_bar w1 reqs2 es2 w2 ->
  orders_placed env (download_dir self) overwrite progress_bar
                w (reqs1 ++ reqs2) (es1 ++ es2) w2.
Proof.
  induction 1 as [|w req order_id wa wb wc reqs es w' Hv Hc Hw Hd _ IH];
    intros Hrest; simpl; [exact Hrest|].
  econstructor; eauto.
Qed.

Lemma order_step_placed chunk item_type bundle s :
  outcome (order_step env self overwrite progress_bar
                      chunk item_type bundle s) = Ok tt ->
  orders_placed env (download_dir self) overwrite progress_bar
    (world s) [order_of chunk item_type bundle]
    (emitted (order_step env self overwrite progress_bar
                         chunk item_type bundle s))
    (world (final (order_step env self overwrite progress_bar
                              chunk item_type bundle s))).
Proof.
  unfold order_step, _create_order, bind, lift, call.
  fold (order_of chunk item_type bundle).
  cbn [outcome final emitted world heap].
  destruct (order_request_validate env (order_of chunk item_type bundle))
    as [[]|e] eqn:Hv; cbn [outcome final emitted world heap app];
    [|discriminate].
  destruct (pl_orders_create_order env (world s)
              (order_of chunk item_type bundle)) as [[order_id|e] w1] eqn:Hc;
    cbn [outcome final emitted world heap app]; [|discriminate].
  destruct (pl_orders_wait env w1 order_id) as [[[]|e] w2] eqn:Hw;
    cbn [outcome final emitted world heap app]; [|discriminate].
  destruct (pl_orders_download_order env w2 order_id (download_dir self)
              overwrite progress_bar) as [[[]|e] w3] eqn:Hd;
    cbn [outcome final emitted world heap app]; [|discriminate].
  intros _. econstructor; eauto. constructor.
Qed.

Lemma for_each_placed {A} (reqs : A -> list order_request.Request)
      (body : A -> M W unit) xs :
  (forall x s,
      outcome (body x s) = Ok tt ->
      orders_placed env (download_dir self) overwrite progress_bar
        (world s) (reqs x) (emitted (body x s)) (world (final (body x s)))) ->
  forall s,
    outcome (for_each xs body s) = Ok tt ->
    orders_placed env (download_dir self) overwrite progress_bar
      (world s) (flat_map reqs xs) (emitted (for_each xs body s))
      (world (final (for_each xs body s))).
Proof.
  intros Hbody. induction xs as [|x xs IH]; intros s Hok; simpl in *.
  - constructor.
  - apply bind_inv in Hok as Hinv. destruct Hinv as ([] & Hx & Hxs).
    rewrite (bind_ok _ _ _ tt) by exact Hx. cbn [final emitted].
    eapply orders_placed_app; [now apply Hbody | now apply IH].
Qed.

Lemma order_loops_placed chunks item_types bundles s :
  outcome (for_each chunks (fun chunk =>
             for_each item_types (fun item_type =>
               for_each bundles (fun bundle =>
                 order_step env self overwrite progress_bar
                            chunk item_type bundle))) s) = Ok tt ->
  orders_placed env (download_dir self) overwrite progress_bar
    (world s) (planned_orders chunks item_types bundles)
    (emitted (for_each chunks (fun chunk =>
                for_each item_types (fun item_type =>
                  for_each bundles (fun bundle =>
                    order_step env self overwrite progress_bar
                               chunk item_type bundle))) s))
    (world (final (for_each chunks (fun chunk =>
                     for_each item_types (fun item_type =>
                       for_each bundles (fun bundle =>
                         order_step env self overwrite progress_bar
                                    chunk item_type bundle))) s))).
Proof.
  unfold planned_orders. revert s.
  apply for_each_placed. intros chunk.
  apply for_each_placed. intros item_type.
  replace (map (fun bundle => order_of chunk item_type bundle) bundles)
    with (flat_map (fun bundle => [order_of chunk item_type bundle]) bundles)
    by (induction bundles; simpl; congruence).
  apply for_each_placed. intros bundle s. apply order_step_placed.
Qed.

End PlacedFacts.

(** C2: a run of [download] that returns, over a search result of N
    records that is not empty, with T item types and B bundles, has
    placed one order for each chunk of 500 identifiers, item type and
    bundle: chunks outermost, bundles innermost, each order for exactly
    the identifiers of its chunk.  Each order is submitted, then the
    order the service answered with is waited for and downloaded, and
    only then is the next one submitted.  That is
    ceiling(N / 500) * T * B orders, all after the one write of the
    metadata. *)
Theorem download_places_all_orders {W} (env : Env W) (self : PlanetDownloader)
    geometry_info start_date end_date item_types bundles cloud_cover
    threads overwrite progress_bar (s s1 : state W) es1 items :
  search env geometry_info start_date end_date item_types cloud_cover s
  = Run (Ok items) s1 es1 ->
  items <> [] ->
  let r := download env self geometry_info start_date end_date item_types
                    bundles cloud_cover threads overwrite progress_bar s in
  outcome r = Ok tt ->
  exists item_ids chunks metadata_write orders,
    outcome (comprehension (fun i => getitem i "id") items s1) = Ok item_ids
    /\ _chunk_list item_ids MAX_ITEMS_PER_ORDER = Ok chunks
    /\ concat chunks = item_ids
    /\ length chunks = ceil_div (length items) 500
    /\ is_to_file metadata_write = true
    /\ emitted r = es1 ++ metadata_write :: orders
    /\ orders_placed env (download_dir self) overwrite progress_bar
         (world (final (_write_metadata env self items "GeoJSON" s1)))
         (planned_orders chunks item_types bundles)
         orders
         (world (final r))
    /\ length (planned_orders chunks item_types bundles)
       = ceil_div (length items) 500 * length item_types * length bundles
    /\ count_events is_create_order (emitted r)
       = ceil_div (length items) 500 * length item_types * length bundles.
Proof.
  intros Hsearch Hne r Hok.
  destruct (download_ok_inv env self geometry_info start_date end_date
              item_types bundles cloud_cover threads overwrite progress_bar
              s s1 es1 items Hsearch Hne Hok)
    as (item_ids & chunks & Hids & Hwm & Hchunks & Hloops).
  destruct (lift_chunk_list_ok item_ids) as (chunks' & Hc' & Hcat & Hlen & _).
  rewrite Hchunks in Hc'. injection Hc' as <-.
  rewrite (comprehension_length _ _ _ _ Hids) in Hlen.
  destruct (_write_metadata_ok env self items "GeoJSON" s1 Hwm)
    as (rows & path & Hwmev & _).
  pose proof (order_loops_placed env self overwrite progress_bar chunks
                item_types bundles _ Hloops) as Hplaced.
  pose proof (download_after_metadata env self geometry_info start_date
                end_date item_types bundles cloud_cover threads overwrite
                progress_bar s s1 es1 items item_ids chunks
                Hsearch Hne Hids Hwm Hchunks) as Hrun.
  cbv zeta in Hrun. fold r in Hrun.
  destruct (download_orders_of_run env self geometry_info start_date end_date
              item_types bundles cloud_cover threads overwrite progress_bar
              s s1 es1 items Hsearch Hne Hok)
    as (_ & _ & _ & _ & _ & _ & _ & _ & _ & _ & _ & Hcount).
  exists item_ids, chunks,
    (EvToFile (mkGeoDataFrame rows "geometry" "EPSG:4326") path "GeoJSON"),
    (emitted (for_each chunks (fun chunk =>
                for_each item_types (fun item_type =>
                  for_each bundles (fun bundle =>
                    order_step env self overwrite progress_bar
                               chunk item_type bundle)))
                (final (_write_metadata env self items "GeoJSON" s1)))).
  split; [exact Hids|]. split; [exact Hchunks|]. split; [exact Hcat|].
  split; [exact Hlen|]. split; [reflexivity|].
  split; [rewrite Hrun; cbn [emitted]; now rewrite Hwmev|].
  split; [rewrite Hrun; cbn [final]; exact Hplaced|].
  split; [now rewrite length_planned_orders, Hlen|].
  exact Hcount.
Qed.

Lemma download_places_all_orders_witness :
  exists item_ids chunks metadata_write orders,
    outcome (comprehension (fun i => getitem i "id") demo_items demo_state)
    = Ok item_ids
    /\ _chunk_list item_ids MAX_ITEMS_PER_ORDER = Ok chunks
    /\ concat chunks = item_ids
    /\ length chunks = ceil_div (length demo_items) 500
    /\ is_to_file metadata_write = true
    /\ emitted demo_download = [demo_search_event] ++ metadata_write :: orders
    /\ orders_placed (demo_env demo_items) (download_dir demo_self) false true
         (world (final (_write_metadata (demo_env demo_items) demo_self
                                        demo_items "GeoJSON" demo_state)))
         (planned_orders chunks demo_item_types demo_bundles)
         orders
         (world (final demo_download))
    /\ length (planned_orders chunks demo_item_types demo_bundles)
       = ceil_div (length demo_items) 500
         * length demo_item_types * length demo_bundles
    /\ count_events is_create_order (emitted demo_download)
       = ceil_div (length demo_items) 500
         * length demo_item_types * length demo_bundles.
Proof.
  apply (download_places_all_orders
           (demo_env demo_items) demo_self demo_geometry
           "2020-01-01" "2020-02-01" demo_item_types demo_bundles
           (VFloat (2 # 10)) 4 false true demo_state demo_state
           [demo_search_event] demo_items).
  - reflexivity.
  - discriminate.
  - vm_compute. reflexivity.
Defined.
